(** * dLocal pending debits: the transaction-file pipeline and its journal entry

    A shallow embedding of the two entry points of the repository,
    [automate_dlocal_pending.py] (module [Cli]) and [app.py] (module [Web]):
    period extraction from the file name, header location, row parsing,
    aggregation over the following period and the journal-entry block of
    the report.

    Conventions.
    - Python [int] is [Z]; row and column numbers are [nat] (1-based, as
      [cell.row] and [cell.column]); Python [float] is the binary64 type
      [float] of the kernel, so [nan] and the infinities are there.
    - Python [str] is [string]: a sequence of 8-bit characters on which
      [lower] and [strip] act as they do on ASCII text.
    - A [dict] whose keys are looked up by name is a [gmap string _]; the
      month table, whose iteration order decides the result, is an
      association list in the order of the dict literal.
    - [datetime.now().year] is the explicit argument [now_year].
    - [print] calls and cell styling are left out; they change no value. *)

From Stdlib Require Import ZArith List String Ascii Floats Bool Lia.
From stdpp Require Import gmap strings list fin_maps pretty.

Open Scope string_scope.

(** ** Python strings *)

Module PyStr.

Definition is_upper (c : ascii) : bool :=
  (65 <=? nat_of_ascii c)%nat && (nat_of_ascii c <=? 90)%nat.

Definition lower_char (c : ascii) : ascii :=
  if is_upper c then ascii_of_nat (nat_of_ascii c + 32) else c.

(** [s.lower()] *)
Fixpoint lower (s : string) : string :=
  match s with
  | "" => ""
  | String c rest => String (lower_char c) (lower rest)
  end.

(** [sub in s] *)
Fixpoint contains (sub s : string) : bool :=
  String.prefix sub s ||
  match s with
  | "" => false
  | String _ rest => contains sub rest
  end.

(** The characters [str.strip()] removes: tab, line feed, vertical tab,
    form feed, carriage return, the four separators 28 to 31, space. *)
Definition is_space (c : ascii) : bool :=
  let n := nat_of_ascii c in
  ((9 <=? n)%nat && (n <=? 13)%nat) || ((28 <=? n)%nat && (n <=? 32)%nat).

Fixpoint lstrip (s : string) : string :=
  match s with
  | "" => ""
  | String c rest => if is_space c then lstrip rest else s
  end.

Fixpoint rstrip (s : string) : string :=
  match s with
  | "" => ""
  | String c rest =>
      match rstrip rest with
      | "" => if is_space c then "" else String c ""
      | kept => String c kept
      end
  end.

(** [s.strip()] *)
Definition strip (s : string) : string := rstrip (lstrip s).

(** [s.replace(',', '')] *)
Fixpoint remove_commas (s : string) : string :=
  match s with
  | "" => ""
  | String c rest =>
      if Ascii.eqb c "," then remove_commas rest
      else String c (remove_commas rest)
  end.

Definition is_digit (c : ascii) : bool :=
  (48 <=? nat_of_ascii c)%nat && (nat_of_ascii c <=? 57)%nat.

Definition digit_value (c : ascii) : Z := (Z.of_nat (nat_of_ascii c) - 48)%Z.

(** [int(s)] on a string of decimal digits. *)
Definition int_of_digits (s : string) : Z :=
  fold_left (fun acc c => (10 * acc + digit_value c)%Z) (list_ascii_of_string s) 0%Z.

(** Does the pattern [20\d{2}] match at the start of [s]? *)
Definition match_20dd (s : string) : option string :=
  match s with
  | String c1 (String c2 (String d1 (String d2 _))) =>
      if Ascii.eqb c1 "2" && Ascii.eqb c2 "0" && is_digit d1 && is_digit d2
      then Some (String c1 (String c2 (String d1 (String d2 ""))))
      else None
  | _ => None
  end.

(** [re.search(r'20\d{2}', s)]: the leftmost match, as [m.group()]. *)
Fixpoint re_search_20dd (s : string) : option string :=
  match match_20dd s with
  | Some g => Some g
  | None =>
      match s with
      | "" => None
      | String _ rest => re_search_20dd rest
      end
  end.

(** [str(n)] for an int. *)
Definition str_int (n : Z) : string := pretty n.

(** [f"{n:02d}"]: at least two characters, padded with a zero. *)
Definition format_02d (n : Z) : string :=
  let s := str_int n in
  if (String.length s <? 2)%nat then "0" ++ s else s.

End PyStr.

(** ** Exceptions and results *)

Inductive exn : Type :=
| KeyError (key : string)
| UnboundLocalError (name : string)
| IllegalMonthError (month : Z).

Inductive outcome (A : Type) : Type :=
| Return (a : A)
| Raise (e : exn).

Arguments Return {A} a.
Arguments Raise {A} e.

(** The error monad of the functions below, with stdpp's [x ← m; k]. *)
#[global] Instance outcome_bind : MBind outcome :=
  fun A B (k : A -> outcome B) (m : outcome A) =>
    match m with
    | Return a => k a
    | Raise e => Raise e
    end.

#[global] Instance outcome_ret : MRet outcome := @Return.

#[global] Instance outcome_fmap : FMap outcome :=
  fun A B (f : A -> B) (m : outcome A) =>
    match m with
    | Return a => Return (f a)
    | Raise e => Raise e
    end.

(** ** Cell values and the library functions the code calls *)

Record datetime : Type := {
  dt_year : Z; dt_month : Z; dt_day : Z;
  dt_hour : Z; dt_minute : Z; dt_second : Z
}.

(** What [cell.value] may hold: [None], an [int] or [float] (by its value
    as a float), a [str], a [datetime]. *)
Inductive CellValue : Type :=
| EmptyCell
| Number (x : float)
| Text (s : string)
| DateValue (d : datetime).

(** The two library functions whose result depends on the text of a cell;
    [None] stands for the [ValueError] they raise.  The code catches it
    every time with a bare [except]. *)
Class PyRuntime : Type := {
  float_of_str : string -> option float;          (* float(s) *)
  strptime : string -> string -> option datetime  (* datetime.strptime(s, fmt) *)
}.

(** [bool(v)]: [None], [0], [0.0] and [''] are false. *)
Definition truthy (v : CellValue) : bool :=
  match v with
  | EmptyCell => false
  | Number x => negb (PrimFloat.eqb x 0)
  | Text s => negb (String.eqb s "")
  | DateValue _ => true
  end.

(** [v != '-'] *)
Definition not_dash (v : CellValue) : bool :=
  match v with
  | Text s => negb (String.eqb s "-")
  | _ => true
  end.

(** A worksheet: its rows from row 1 down, each row its cells from column
    1 on.  [iter_rows] hands out rows of the sheet's full width, the cells
    with no content holding [None]: reading past the listed cells of a row
    gives [EmptyCell]. *)
Definition Row : Type := list CellValue.
Definition Worksheet : Type := list Row.

(** [row[column - 1]] for a column number taken from [cell.column]. *)
Definition row_cell (row : Row) (column : nat) : CellValue :=
  default EmptyCell (row !! (column - 1)%nat).

(** [headers[key]] *)
Definition getitem (headers : gmap string nat) (key : string) : outcome nat :=
  match headers !! key with
  | Some column => Return column
  | None => Raise (KeyError key)
  end.

(** ** The result of a run *)

(** An entry of [all_transactions]. [is_following_month] is [None] when
    the processed date could not be read (the value of [None and ...]). *)
Record Transaction : Type := {
  txn_date : CellValue;
  txn_date_processed : CellValue;
  txn_debit : CellValue;
  txn_return : CellValue;
  txn_cn : CellValue;
  txn_dn : CellValue;
  txn_is_following_month : option bool
}.

(** An entry of [transactions] (the rows of the following month). *)
Record MatchedTransaction : Type := {
  m_date : CellValue;
  m_date_processed : CellValue;
  m_debit : CellValue;
  m_return : CellValue
}.

Record Result : Type := {
  file_month : Z;
  file_year : Z;
  following_month : Z;
  following_year : Z;
  total_debit : float;
  total_return : float;
  net_amount : float;
  transactions : list MatchedTransaction;
  all_transactions : list Transaction;
  filename : string
}.

(** The state of the row loop. *)
Record Totals : Type := {
  acc_debit : float;
  acc_return : float;
  acc_filtered : list MatchedTransaction;
  acc_all : list Transaction
}.

Definition no_totals : Totals :=
  {| acc_debit := 0; acc_return := 0; acc_filtered := []; acc_all := [] |}.

(** ** The journal-entry block *)

(** A data row under the journal header; columns A to L. *)
Record JournalLine : Type := {
  je_debit : option float;
  je_credit : option float;
  je_date : string;
  je_reversal_date : string;
  je_memo : string;
  je_account : string;
  je_department : string;
  je_location : string;
  je_name : option string;
  je_subsidiary : string;
  je_entry_memo : string;
  je_class : string
}.

(** A row written under the journal header: a data line, or the text put
    in column A when there is nothing to book. *)
Inductive JournalRow : Type :=
| Line (l : JournalLine)
| Notice (text : string).

Definition data_lines (rows : list JournalRow) : list JournalLine :=
  omap (fun r => match r with Line l => Some l | Notice _ => None end) rows.

(** ** [calendar.monthrange(year, month)[1]] *)

Definition isleap (year : Z) : bool :=
  ((year mod 4 =? 0) && (negb (year mod 100 =? 0) || (year mod 400 =? 0)))%Z.

Definition mdays : list Z := [0; 31; 28; 31; 30; 31; 30; 31; 31; 30; 31; 30; 31]%Z.

Definition monthrange_ndays (year month : Z) : outcome Z :=
  if ((1 <=? month) && (month <=? 12))%Z
  then Return (default 0 (mdays !! Z.to_nat month)
               + (if (month =? 2)%Z && isleap year then 1 else 0))%Z
  else Raise (IllegalMonthError month).

(** ** automate_dlocal_pending.py *)

Module Cli.

(** The dict literal of [extract_month_from_filename], in its order. *)
Definition month_mapping : list (string * Z) :=
  [("enero", 1); ("febrero", 2); ("marzo", 3); ("abril", 4);
   ("mayo", 5); ("junio", 6); ("julio", 7); ("agosto", 8);
   ("septiembre", 9); ("octubre", 10); ("noviembre", 11); ("diciembre", 12);
   ("january", 1); ("february", 2); ("march", 3); ("april", 4);
   ("may", 5); ("june", 6); ("july", 7); ("august", 8);
   ("september", 9); ("october", 10); ("november", 11); ("december", 12)]%Z.

(** The [for month_name, month_num in month_mapping.items()] loop: the
    number of the first entry whose name is in [filename_lower]. *)
Fixpoint first_month (filename_lower : string) (table : list (string * Z))
  : option Z :=
  match table with
  | [] => None
  | (month_name, month_num) :: rest =>
      if PyStr.contains month_name filename_lower then Some month_num
      else first_month filename_lower rest
  end.

(** [None] stands for the pair [(None, None)]. *)
Definition extract_month_from_filename (now_year : Z) (filename : string)
  : option (Z * Z) :=
  let filename_lower := PyStr.lower filename in
  match first_month filename_lower month_mapping with
  | Some month_num =>
      let year_match := PyStr.re_search_20dd filename in
      let year :=
        match year_match with
        | Some group => PyStr.int_of_digits group
        | None => now_year
        end in
      Some (month_num, year)
  | None => None
  end.

Definition get_following_month (month year : Z) : Z * Z :=
  if (month =? 12)%Z then (1, year + 1)%Z else (month + 1, year)%Z.

Definition date_formats : list string := ["%m/%d/%y"; "%m/%d/%Y"; "%Y-%m-%d"].

(** The [for fmt in [...]] loop of [parse_date]: the first format that
    [strptime] accepts. *)
Fixpoint try_formats `{PyRuntime} (date_value : string) (formats : list string)
  : option datetime :=
  match formats with
  | [] => None
  | fmt :: rest =>
      match strptime date_value fmt with
      | Some d => Some d
      | None => try_formats date_value rest
      end
  end.

Definition parse_date `{PyRuntime} (date_value : CellValue) : option datetime :=
  match date_value with
  | DateValue d => Some d
  | Text s => try_formats s date_formats
  | _ => None
  end.

(** One cell of the header scan.  Only a non-empty [str] can carry one of
    the labels: [str] of a number or of a [datetime] has none of their
    letters. *)
Definition record_header (headers : gmap string nat) (column : nat)
    (value : CellValue) : gmap string nat :=
  match value with
  | Text s =>
      if truthy value then
        let header_text := PyStr.strip s in
        if PyStr.contains "Date processed" header_text
           || PyStr.contains "Date Processed" header_text
        then <["date_processed" := column]> headers
        else if PyStr.contains "ACH_DEBIT_AMOUNT" header_text
        then <["debit_amount" := column]> headers
        else if PyStr.contains "ACH_RETURN_AMOUNT" header_text
        then <["return_amount" := column]> headers
        else if String.eqb header_text "Date"
        then <["date" := column]> headers
        else headers
      else headers
  | _ => headers
  end.

(** [for cell in row], the cells numbered from [column]. *)
Fixpoint scan_cells (headers : gmap string nat) (column : nat) (row : Row)
  : gmap string nat :=
  match row with
  | [] => headers
  | value :: rest => scan_cells (record_header headers column value) (S column) rest
  end.

(** The first loop over rows 1 to 5, with its [break].  The second
    component is [header_row], [None] while the name is unbound. *)
Fixpoint scan_rows (headers : gmap string nat) (row_number : nat)
    (rows : list Row) : gmap string nat * option nat :=
  match rows with
  | [] => (headers, None)
  | row :: rest =>
      let headers := scan_cells headers 1 row in
      if (3 <=? size headers)%nat then (headers, Some row_number)
      else scan_rows headers (S row_number) rest
  end.

(** [ws.iter_rows(min_row=1, max_row=5)]; rows the sheet does not have
    are rows of empty cells, which the scans pass over. *)
Definition first_rows (ws : Worksheet) : list Row := take 5 ws.

Definition find_headers (ws : Worksheet) : gmap string nat * option nat :=
  scan_rows ∅ 1 (first_rows ws).

(** One cell of the loop that looks for the CN and DN columns. *)
Definition record_reference (headers : gmap string nat) (column : nat)
    (value : CellValue) : gmap string nat :=
  match value with
  | Text s =>
      if truthy value then
        let header_text := PyStr.strip s in
        if String.eqb header_text "CN" then <["cn" := column]> headers
        else if String.eqb header_text "DN" then <["dn" := column]> headers
        else headers
      else headers
  | _ => headers
  end.

Fixpoint scan_reference_cells (headers : gmap string nat) (column : nat)
    (row : Row) : gmap string nat :=
  match row with
  | [] => headers
  | value :: rest =>
      scan_reference_cells (record_reference headers column value) (S column) rest
  end.

Definition find_references (headers : gmap string nat) (ws : Worksheet)
  : gmap string nat :=
  fold_left (fun h row => scan_reference_cells h 1 row) (first_rows ws) headers.

(** The amount read from a debit or return cell:
    [float(str(value).replace(',', ''))] under [try], 0 otherwise.  For a
    number [str] gives a literal with no comma that [float] reads back
    to the same value; [str] of a [datetime] is no float literal. *)
Definition coerce_amount `{PyRuntime} (value : CellValue) : float :=
  if truthy value && not_dash value then
    match value with
    | Number x => x
    | Text s => default 0%float (float_of_str (PyStr.remove_commas s))
    | _ => 0%float
    end
  else 0%float.

(** [value if value and value != '-' else 0] *)
Definition stored_amount (value : CellValue) : CellValue :=
  if truthy value && not_dash value then value else Number 0.

(** [row[headers.get(key, 0) - 1] if key in headers else None], then
    [cell.value if cell else '']. *)
Definition optional_value (headers : gmap string nat) (key : string)
    (row : Row) : CellValue :=
  match headers !! key with
  | Some column => row_cell row column
  | None => Text ""
  end.

(** [date_processed and date_processed.month == following_month and
    date_processed.year == following_year] *)
Definition following_month_test (date_processed : option datetime)
    (following_month following_year : Z) : option bool :=
  match date_processed with
  | None => None
  | Some d =>
      Some ((dt_month d =? following_month)%Z && (dt_year d =? following_year)%Z)
  end.

(** Truth value of the test in [if is_following_month:]. *)
Definition holds (test : option bool) : bool := default false test.

(** The body of the loop over the data rows. *)
Definition process_row `{PyRuntime} (headers : gmap string nat)
    (following_month following_year : Z) (acc : Totals) (row : Row)
  : outcome Totals :=
  date_processed_column ← getitem headers "date_processed";
  let date_processed_cell := row_cell row date_processed_column in
  let date_processed := parse_date date_processed_cell in
  if negb (truthy date_processed_cell) then Return acc
  else
    debit_column ← getitem headers "debit_amount";
    let debit_value := row_cell row debit_column in
    let debit_amount := coerce_amount debit_value in
    return_column ← getitem headers "return_amount";
    let return_value := row_cell row return_column in
    let return_amount := coerce_amount return_value in
    let date_value := optional_value headers "date" row in
    let cn_value := optional_value headers "cn" row in
    let dn_value := optional_value headers "dn" row in
    let is_following_month :=
      following_month_test date_processed following_month following_year in
    let all_transactions :=
      (acc_all acc ++
       [{| txn_date := date_value;
           txn_date_processed := date_processed_cell;
           txn_debit := stored_amount debit_value;
           txn_return := stored_amount return_value;
           txn_cn := cn_value;
           txn_dn := dn_value;
           txn_is_following_month := is_following_month |}])%list in
    if holds is_following_month then
      Return
        {| acc_debit := (acc_debit acc + debit_amount)%float;
           acc_return := (acc_return acc + return_amount)%float;
           acc_filtered :=
             (acc_filtered acc ++
              [{| m_date := date_value;
                  m_date_processed := date_processed_cell;
                  m_debit := stored_amount debit_value;
                  m_return := stored_amount return_value |}])%list;
           acc_all := all_transactions |}
    else
      Return
        {| acc_debit := acc_debit acc;
           acc_return := acc_return acc;
           acc_filtered := acc_filtered acc;
           acc_all := all_transactions |}.

Fixpoint process_rows `{PyRuntime} (headers : gmap string nat)
    (following_month following_year : Z) (acc : Totals) (rows : list Row)
  : outcome Totals :=
  match rows with
  | [] => Return acc
  | row :: rest =>
      acc ← process_row headers following_month following_year acc row;
      process_rows headers following_month following_year acc rest
  end.

(** [filename] is [Path(filepath).name], [ws] the active sheet of the
    workbook at [filepath].  [Return None] is the [return None] after an
    error message. *)
Definition process_transaction_file `{PyRuntime} (now_year : Z)
    (filename : string) (ws : Worksheet) : outcome (option Result) :=
  match extract_month_from_filename now_year filename with
  | None => Return None
  | Some (file_month, file_year) =>
      let '(following_month, following_year) :=
        get_following_month file_month file_year in
      let '(headers, header_row) := find_headers ws in
      if negb (bool_decide (is_Some (headers !! "date_processed")))
      then Return None
      else
        let headers := find_references headers ws in
        match header_row with
        | None => Raise (UnboundLocalError "header_row")
        | Some header_row =>
            acc ← process_rows headers following_month following_year
                    no_totals (drop header_row ws);
            let net_amount := (acc_debit acc - acc_return acc)%float in
            Return (Some
              {| file_month := file_month;
                 file_year := file_year;
                 following_month := following_month;
                 following_year := following_year;
                 total_debit := acc_debit acc;
                 total_return := acc_return acc;
                 net_amount := net_amount;
                 transactions := acc_filtered acc;
                 all_transactions := acc_all acc;
                 filename := filename |})
        end
  end.

(** A data row of the journal block: the amount in column A or B, the
    three strings computed from the periods, the account, and the
    literals the code writes in the other columns. *)
Definition journal_line (debit credit : option float)
    (date_str reversal_date_str memo account : string) : JournalLine :=
  {| je_debit := debit;
     je_credit := credit;
     je_date := date_str;
     je_reversal_date := reversal_date_str;
     je_memo := memo;
     je_account := account;
     je_department := "0000 Corporate";
     je_location := "1 San Francisco";
     je_name := None;
     je_subsidiary := "Gusto Inc Global : Gusto Inc US";
     je_entry_memo := memo;
     je_class := "601 Horizontal" |}.

Definition customer_funds_obligation : string :=
  "22010 - Customer Funds Obligation : Customer Funds Liability".

Definition other_current_liabilities : string :=
  "21017 - Other Current Liabilities : Accrued Liabilities - Platform".

(** The rows [create_summary_and_je] writes under the journal header
    (from the comment "Determine JE based on net amount" on). *)
Definition create_summary_and_je_journal (result : Result)
  : outcome (list JournalRow) :=
  let net := net_amount result in
  let file_month_str := PyStr.format_02d (file_month result) in
  let file_year_str := PyStr.str_int (file_year result) in
  let memo := "dLocal Pending Debits " ++ file_month_str ++ "." ++ file_year_str in
  let '(last_day_month, last_day_year) :=
    if (file_month result =? 12)%Z
    then (12%Z, file_year result)
    else (file_month result, file_year result) in
  last_day ← monthrange_ndays last_day_year last_day_month;
  let date_str :=
    PyStr.str_int last_day_month ++ "/" ++ PyStr.str_int last_day
      ++ "/" ++ PyStr.str_int last_day_year in
  let reversal_date_str :=
    PyStr.str_int (following_month result) ++ "/1/"
      ++ PyStr.str_int (following_year result) in
  if (0 <? net)%float then
    Return
      [Line (journal_line (Some (abs net)) None date_str reversal_date_str
               memo customer_funds_obligation);
       Line (journal_line None (Some (abs net)) date_str reversal_date_str
               memo other_current_liabilities)]
  else if (net <? 0)%float then
    Return
      [Line (journal_line None (Some (abs net)) date_str reversal_date_str
               memo customer_funds_obligation);
       Line (journal_line (Some (abs net)) None date_str reversal_date_str
               memo other_current_liabilities)]
  else
    Return [Notice "No journal entry required (Net Amount = 0)"].

End Cli.

(** ** app.py *)

Module Web.

(** The dict literal of [extract_month_from_filename], in its order. *)
Definition month_mapping : list (string * Z) :=
  [("enero", 1); ("febrero", 2); ("marzo", 3); ("abril", 4);
   ("mayo", 5); ("junio", 6); ("julio", 7); ("agosto", 8);
   ("septiembre", 9); ("octubre", 10); ("noviembre", 11); ("diciembre", 12);
   ("january", 1); ("february", 2); ("march", 3); ("april", 4);
   ("may", 5); ("june", 6); ("july", 7); ("august", 8);
   ("september", 9); ("october", 10); ("november", 11); ("december", 12)]%Z.

(** The [for month_name, month_num in month_mapping.items()] loop: the
    number of the first entry whose name is in [filename_lower]. *)
Fixpoint first_month (filename_lower : string) (table : list (string * Z))
  : option Z :=
  match table with
  | [] => None
  | (month_name, month_num) :: rest =>
      if PyStr.contains month_name filename_lower then Some month_num
      else first_month filename_lower rest
  end.

(** [None] stands for the pair [(None, None)]. *)
Definition extract_month_from_filename (now_year : Z) (filename : string)
  : option (Z * Z) :=
  let filename_lower := PyStr.lower filename in
  match first_month filename_lower month_mapping with
  | Some month_num =>
      let year_match := PyStr.re_search_20dd filename in
      let year :=
        match year_match with
        | Some group => PyStr.int_of_digits group
        | None => now_year
        end in
      Some (month_num, year)
  | None => None
  end.

Definition get_following_month (month year : Z) : Z * Z :=
  if (month =? 12)%Z then (1, year + 1)%Z else (month + 1, year)%Z.

Definition date_formats : list string := ["%m/%d/%y"; "%m/%d/%Y"; "%Y-%m-%d"].

(** The [for fmt in [...]] loop of [parse_date]: the first format that
    [strptime] accepts. *)
Fixpoint try_formats `{PyRuntime} (date_value : string) (formats : list string)
  : option datetime :=
  match formats with
  | [] => None
  | fmt :: rest =>
      match strptime date_value fmt with
      | Some d => Some d
      | None => try_formats date_value rest
      end
  end.

Definition parse_date `{PyRuntime} (date_value : CellValue) : option datetime :=
  match date_value with
  | DateValue d => Some d
  | Text s => try_formats s date_formats
  | _ => None
  end.

(** One cell of the header scan.  Only a non-empty [str] can carry one of
    the labels: [str] of a number or of a [datetime] has none of their
    letters. *)
Definition record_header (headers : gmap string nat) (column : nat)
    (value : CellValue) : gmap string nat :=
  match value with
  | Text s =>
      if truthy value then
        let header_text := PyStr.strip s in
        if PyStr.contains "Date processed" header_text
           || PyStr.contains "Date Processed" header_text
        then <["date_processed" := column]> headers
        else if PyStr.contains "ACH_DEBIT_AMOUNT" header_text
        then <["debit_amount" := column]> headers
        else if PyStr.contains "ACH_RETURN_AMOUNT" header_text
        then <["return_amount" := column]> headers
        else if String.eqb header_text "Date"
        then <["date" := column]> headers
        else headers
      else headers
  | _ => headers
  end.

(** [for cell in row], the cells numbered from [column]. *)
Fixpoint scan_cells (headers : gmap string nat) (column : nat) (row : Row)
  : gmap string nat :=
  match row with
  | [] => headers
  | value :: rest => scan_cells (record_header headers column value) (S column) rest
  end.

(** The first loop over rows 1 to 5, with its [break].  The second
    component is [header_row], [None] while the name is unbound. *)
Fixpoint scan_rows (headers : gmap string nat) (row_number : nat)
    (rows : list Row) : gmap string nat * option nat :=
  match rows with
  | [] => (headers, None)
  | row :: rest =>
      let headers := scan_cells headers 1 row in
      if (3 <=? size headers)%nat then (headers, Some row_number)
      else scan_rows headers (S row_number) rest
  end.

(** [ws.iter_rows(min_row=1, max_row=5)]; rows the sheet does not have
    are rows of empty cells, which the scans pass over. *)
Definition first_rows (ws : Worksheet) : list Row := take 5 ws.

Definition find_headers (ws : Worksheet) : gmap string nat * option nat :=
  scan_rows ∅ 1 (first_rows ws).

(** One cell of the loop that looks for the CN and DN columns. *)
Definition record_reference (headers : gmap string nat) (column : nat)
    (value : CellValue) : gmap string nat :=
  match value with
  | Text s =>
      if truthy value then
        let header_text := PyStr.strip s in
        if String.eqb header_text "CN" then <["cn" := column]> headers
        else if String.eqb header_text "DN" then <["dn" := column]> headers
        else headers
      else headers
  | _ => headers
  end.

Fixpoint scan_reference_cells (headers : gmap string nat) (column : nat)
    (row : Row) : gmap string nat :=
  match row with
  | [] => headers
  | value :: rest =>
      scan_reference_cells (record_reference headers column value) (S column) rest
  end.

Definition find_references (headers : gmap string nat) (ws : Worksheet)
  : gmap string nat :=
  fold_left (fun h row => scan_reference_cells h 1 row) (first_rows ws) headers.

(** The amount read from a debit or return cell:
    [float(str(value).replace(',', ''))] under [try], 0 otherwise.  For a
    number [str] gives a literal with no comma that [float] reads back
    to the same value; [str] of a [datetime] is no float literal. *)
Definition coerce_amount `{PyRuntime} (value : CellValue) : float :=
  if truthy value && not_dash value then
    match value with
    | Number x => x
    | Text s => default 0%float (float_of_str (PyStr.remove_commas s))
    | _ => 0%float
    end
  else 0%float.

(** [value if value and value != '-' else 0] *)
Definition stored_amount (value : CellValue) : CellValue :=
  if truthy value && not_dash value then value else Number 0.

(** [row[headers.get(key, 0) - 1] if key in headers else None], then
    [cell.value if cell else '']. *)
Definition optional_value (headers : gmap string nat) (key : string)
    (row : Row) : CellValue :=
  match headers !! key with
  | Some column => row_cell row column
  | None => Text ""
  end.

(** [date_processed and date_processed.month == following_month and
    date_processed.year == following_year] *)
Definition following_month_test (date_processed : option datetime)
    (following_month following_year : Z) : option bool :=
  match date_processed with
  | None => None
  | Some d =>
      Some ((dt_month d =? following_month)%Z && (dt_year d =? following_year)%Z)
  end.

(** Truth value of the test in [if is_following_month:]. *)
Definition holds (test : option bool) : bool := default false test.

(** The body of the loop over the data rows. *)
Definition process_row `{PyRuntime} (headers : gmap string nat)
    (following_month following_year : Z) (acc : Totals) (row : Row)
  : outcome Totals :=
  date_processed_column ← getitem headers "date_processed";
  let date_processed_cell := row_cell row date_processed_column in
  let date_processed := parse_date date_processed_cell in
  if negb (truthy date_processed_cell) then Return acc
  else
    debit_column ← getitem headers "debit_amount";
    let debit_value := row_cell row debit_column in
    let debit_amount := coerce_amount debit_value in
    return_column ← getitem headers "return_amount";
    let return_value := row_cell row return_column in
    let return_amount := coerce_amount return_value in
    let date_value := optional_value headers "date" row in
    let cn_value := optional_value headers "cn" row in
    let dn_value := optional_value headers "dn" row in
    let is_following_month :=
      following_month_test date_processed following_month following_year in
    let all_transactions :=
      (acc_all acc ++
       [{| txn_date := date_value;
           txn_date_processed := date_processed_cell;
           txn_debit := stored_amount debit_value;
           txn_return := stored_amount return_value;
           txn_cn := cn_value;
           txn_dn := dn_value;
           txn_is_following_month := is_following_month |}])%list in
    if holds is_following_month then
      Return
        {| acc_debit := (acc_debit acc + debit_amount)%float;
           acc_return := (acc_return acc + return_amount)%float;
           acc_filtered :=
             (acc_filtered acc ++
              [{| m_date := date_value;
                  m_date_processed := date_processed_cell;
                  m_debit := stored_amount debit_value;
                  m_return := stored_amount return_value |}])%list;
           acc_all := all_transactions |}
    else
      Return
        {| acc_debit := acc_debit acc;
           acc_return := acc_return acc;
           acc_filtered := acc_filtered acc;
           acc_all := all_transactions |}.

Fixpoint process_rows `{PyRuntime} (headers : gmap string nat)
    (following_month following_year : Z) (acc : Totals) (rows : list Row)
  : outcome Totals :=
  match rows with
  | [] => Return acc
  | row :: rest =>
      acc ← process_row headers following_month following_year acc row;
      process_rows headers following_month following_year acc rest
  end.

(** [filename] is [Path(filepath).name], [ws] the active sheet of the
    workbook at [filepath].  The pair is [(result, None)] or
    [(None, message)]. *)
Definition process_transaction_file `{PyRuntime} (now_year : Z)
    (filename : string) (ws : Worksheet)
  : outcome (option Result * option string) :=
  match extract_month_from_filename now_year filename with
  | None => Return (None, Some "Could not extract month from filename")
  | Some (file_month, file_year) =>
      let '(following_month, following_year) :=
        get_following_month file_month file_year in
      let '(headers, header_row) := find_headers ws in
      if negb (bool_decide (is_Some (headers !! "date_processed")))
      then Return (None, Some "Could not find 'Date processed' column")
      else
        let headers := find_references headers ws in
        match header_row with
        | None => Raise (UnboundLocalError "header_row")
        | Some header_row =>
            acc ← process_rows headers following_month following_year
                    no_totals (drop header_row ws);
            let net_amount := (acc_debit acc - acc_return acc)%float in
            Return (Some
              {| file_month := file_month;
                 file_year := file_year;
                 following_month := following_month;
                 following_year := following_year;
                 total_debit := acc_debit acc;
                 total_return := acc_return acc;
                 net_amount := net_amount;
                 transactions := acc_filtered acc;
                 all_transactions := acc_all acc;
                 filename := filename |}, None)
        end
  end.

(** A data row of the journal block: the amount in column A or B, the
    three strings computed from the periods, the account, and the
    literals the code writes in the other columns. *)
Definition journal_line (debit credit : option float)
    (date_str reversal_date_str memo account : string) : JournalLine :=
  {| je_debit := debit;
     je_credit := credit;
     je_date := date_str;
     je_reversal_date := reversal_date_str;
     je_memo := memo;
     je_account := account;
     je_department := "0000 Corporate";
     je_location := "1 San Francisco";
     je_name := None;
     je_subsidiary := "Gusto Inc Global : Gusto Inc US";
     je_entry_memo := memo;
     je_class := "601 Horizontal" |}.

Definition customer_funds_obligation : string :=
  "22010 - Customer Funds Obligation : Customer Funds Liability".

Definition other_current_liabilities : string :=
  "21017 - Other Current Liabilities : Accrued Liabilities - Platform".

(** The rows [create_summary_and_je] writes under the journal header
    (from the comment "Generate JE" on). *)
Definition create_summary_and_je_journal (result : Result)
  : outcome (list JournalRow) :=
  let net := net_amount result in
  let file_month_str := PyStr.format_02d (file_month result) in
  let file_year_str := PyStr.str_int (file_year result) in
  let memo := "dLocal Pending Debits " ++ file_month_str ++ "." ++ file_year_str in
  last_day ← monthrange_ndays (file_year result) (file_month result);
  let date_str :=
    PyStr.str_int (file_month result) ++ "/" ++ PyStr.str_int last_day
      ++ "/" ++ PyStr.str_int (file_year result) in
  let reversal_date_str :=
    PyStr.str_int (following_month result) ++ "/1/"
      ++ PyStr.str_int (following_year result) in
  if (0 <? net)%float then
    Return
      [Line (journal_line (Some (abs net)) None date_str reversal_date_str
               memo customer_funds_obligation);
       Line (journal_line None (Some (abs net)) date_str reversal_date_str
               memo other_current_liabilities)]
  else if (net <? 0)%float then
    Return
      [Line (journal_line None (Some (abs net)) date_str reversal_date_str
               memo customer_funds_obligation);
       Line (journal_line (Some (abs net)) None date_str reversal_date_str
               memo other_current_liabilities)]
  else
    Return [Notice "No journal entry required (Net Amount = 0)"].

End Web.

(** ** A runtime to run the functions on examples

    The theorems below hold for every [PyRuntime].  To evaluate the
    functions on a workbook one instance is needed; this one reads what the
    examples contain, the way Python does on them:
    - [float]: surrounding blanks, a sign, then [nan], [inf], [infinity]
      (any case) or a plain decimal literal with at most 15 digits before
      and after the point together; every other string is a [ValueError]
      here (Python also reads exponents and underscores);
    - [strptime]: the three formats of [parse_date], fields of ASCII
      digits, the day checked against the length of the month. *)

Module Reference.

Fixpoint split_on (sep : ascii) (s : string) : list string :=
  match s with
  | "" => [""]
  | String c rest =>
      if Ascii.eqb c sep then "" :: split_on sep rest
      else
        match split_on sep rest with
        | [] => [String c ""]
        | field :: fields => String c field :: fields
        end
  end.

Definition all_digits (s : string) : bool :=
  forallb PyStr.is_digit (list_ascii_of_string s).

Definition float_of_Z (n : Z) : float := PrimFloat.of_uint63 (Uint63.of_Z n).

(** [digits_before.digits_after], at least one digit, at most 15. *)
Definition decimal_literal (body : string) : option float :=
  let read (before after : string) : option float :=
    let digits := before ++ after in
    if all_digits digits
       && (1 <=? String.length digits)%nat && (String.length digits <=? 15)%nat
    then Some (float_of_Z (PyStr.int_of_digits digits)
               / float_of_Z (10 ^ Z.of_nat (String.length after)))%float
    else None in
  match split_on "." body with
  | [before] => read before ""
  | [before; after] => read before after
  | _ => None
  end.

Definition float_of_str (s : string) : option float :=
  let s := PyStr.strip s in
  let '(negative, body) :=
    match s with
    | String "-" rest => (true, rest)
    | String "+" rest => (false, rest)
    | _ => (false, s)
    end in
  let magnitude :=
    let word := PyStr.lower body in
    if String.eqb word "nan" then Some nan
    else if String.eqb word "inf" || String.eqb word "infinity" then Some infinity
    else decimal_literal body in
  (fun x => if negative then (- x)%float else x) <$> magnitude.

(** A field of [lo] to [hi] digits. *)
Definition field (lo hi : nat) (s : string) : option Z :=
  if all_digits s && (lo <=? String.length s)%nat && (String.length s <=? hi)%nat
  then Some (PyStr.int_of_digits s)
  else None.

Definition make_date (year month day : Z) : option datetime :=
  match monthrange_ndays year month with
  | Return ndays =>
      if ((1 <=? year) && (1 <=? day) && (day <=? ndays))%Z
      then Some {| dt_year := year; dt_month := month; dt_day := day;
                   dt_hour := 0; dt_minute := 0; dt_second := 0 |}
      else None
  | Raise _ => None
  end.

(** [%y]: 69 to 99 are 1969 to 1999, 00 to 68 are 2000 to 2068. *)
Definition century (yy : Z) : Z := (if yy <=? 68 then 2000 + yy else 1900 + yy)%Z.

Definition strptime (s fmt : string) : option datetime :=
  if String.eqb fmt "%m/%d/%y" then
    match split_on "/" s with
    | [m; d; y] =>
        month ← field 1 2 m; day ← field 1 2 d; yy ← field 2 2 y;
        make_date (century yy) month day
    | _ => None
    end
  else if String.eqb fmt "%m/%d/%Y" then
    match split_on "/" s with
    | [m; d; y] =>
        month ← field 1 2 m; day ← field 1 2 d; year ← field 4 4 y;
        make_date year month day
    | _ => None
    end
  else if String.eqb fmt "%Y-%m-%d" then
    match split_on "-" s with
    | [y; m; d] =>
        year ← field 4 4 y; month ← field 1 2 m; day ← field 1 2 d;
        make_date year month day
    | _ => None
    end
  else None.

Definition runtime : PyRuntime := Build_PyRuntime float_of_str strptime.

End Reference.

(** ** Vocabulary of the statements *)

(** [sub] occurs in [s], [i] characters from its start. *)
Definition occurs_at (sub s : string) (i : nat) : Prop :=
  exists pre post, s = pre ++ sub ++ post /\ String.length pre = i.

Definition occurs (sub s : string) : Prop :=
  exists pre post, s = pre ++ sub ++ post.

(** A text the pattern [20\d{2}] matches. *)
Definition year_token (g : string) : Prop :=
  exists d1 d2,
    g = String "2" (String "0" (String d1 (String d2 "")))
    /\ PyStr.is_digit d1 = true /\ PyStr.is_digit d2 = true.

(** [g] is the first year token of [s]: no year token starts before it. *)
Definition first_year_token (s g : string) : Prop :=
  exists i,
    occurs_at g s i /\ year_token g
    /\ forall j g', year_token g' -> occurs_at g' s j -> (i <= j)%nat.

Definition no_year_token (s : string) : Prop :=
  forall g, year_token g -> ~ occurs g s.

(** [sum(xs)]: the additions of the row loop, in its order, from 0. *)
Definition py_sum (xs : list float) : float :=
  fold_left PrimFloat.add xs 0%float.

(** What the loop body computes for a row it does not skip: the entry it
    appends to [all_transactions], the entry it appends to [transactions]
    when the row is of the following month, the two amounts and the truth
    value of [is_following_month]. *)
Record ParsedRow : Type := {
  as_transaction : Transaction;
  as_matched : MatchedTransaction;
  debitAmount : float;
  returnAmount : float;
  matchesFollowingPeriod : bool
}.

(** The row as the loop body of [process_transaction_file] reads it, for
    columns [c_processed], [c_debit], [c_return]; [None] for a row the loop
    skips. *)
Definition parsed_row `{PyRuntime} (headers : gmap string nat)
    (c_processed c_debit c_return : nat) (following_month following_year : Z)
    (row : Row) : option ParsedRow :=
  let date_processed_cell := row_cell row c_processed in
  if truthy date_processed_cell then
    let debit_value := row_cell row c_debit in
    let return_value := row_cell row c_return in
    let date_value := Cli.optional_value headers "date" row in
    let test :=
      Cli.following_month_test (Cli.parse_date date_processed_cell)
        following_month following_year in
    Some
      {| as_transaction :=
           {| txn_date := date_value;
              txn_date_processed := date_processed_cell;
              txn_debit := Cli.stored_amount debit_value;
              txn_return := Cli.stored_amount return_value;
              txn_cn := Cli.optional_value headers "cn" row;
              txn_dn := Cli.optional_value headers "dn" row;
              txn_is_following_month := test |};
         as_matched :=
           {| m_date := date_value;
              m_date_processed := date_processed_cell;
              m_debit := Cli.stored_amount debit_value;
              m_return := Cli.stored_amount return_value |};
         debitAmount := Cli.coerce_amount debit_value;
         returnAmount := Cli.coerce_amount return_value;
         matchesFollowingPeriod := Cli.holds test |}
  else None.

(** The amount of a cell in the words of the specification: an empty cell
    or the placeholder "-" is 0; any other value is read as a float once
    its commas are removed (a number is read back as itself); a value that
    cannot be read is 0. *)
Definition amount_as_specified `{PyRuntime} (value : CellValue) : float :=
  match value with
  | EmptyCell => 0%float
  | Text s =>
      if bool_decide (s = "" \/ s = "-") then 0%float
      else
        match float_of_str (PyStr.remove_commas s) with
        | Some x => x
        | None => 0%float
        end
  | Number x => if (x =? 0)%float then 0%float else x
  | DateValue _ => 0%float
  end.

(** Is the value a number? *)
Definition is_number (value : CellValue) : Prop :=
  exists x, value = Number x.

(** The state of the row loop after a row that was not skipped. *)
Definition add_parsed (acc : Totals) (p : ParsedRow) : Totals :=
  if matchesFollowingPeriod p then
    {| acc_debit := (acc_debit acc + debitAmount p)%float;
       acc_return := (acc_return acc + returnAmount p)%float;
       acc_filtered := (acc_filtered acc ++ [as_matched p])%list;
       acc_all := (acc_all acc ++ [as_transaction p])%list |}
  else
    {| acc_debit := acc_debit acc;
       acc_return := acc_return acc;
       acc_filtered := acc_filtered acc;
       acc_all := (acc_all acc ++ [as_transaction p])%list |}.

(** The cells of a row with their column numbers, the first being
    [column]. *)
Definition numbered_from (column : nat) (row : Row) : list (nat * CellValue) :=
  imap (fun i value => ((column + i)%nat, value)) row.

Definition row_cells (row : Row) : list (nat * CellValue) := numbered_from 1 row.

(** The first loop's step on a cell with its column number. *)
Definition record_numbered (headers : gmap string nat) (cell : nat * CellValue)
  : gmap string nat :=
  Cli.record_header headers (fst cell) (snd cell).

(** The fields located after the rows [rows], starting from [headers]. *)
Definition scan_all (headers : gmap string nat) (rows : list Row)
  : gmap string nat :=
  fold_left (fun h row => Cli.scan_cells h 1 row) rows headers.

(** The fields located in rows 1 to [r] together (at most the first five
    rows are looked at). *)
Definition headers_upto (r : nat) (ws : Worksheet) : gmap string nat :=
  fold_left (fun h row => Cli.scan_cells h 1 row) (take r (Cli.first_rows ws)) ∅.

(** The fields a row contributes by itself. *)
Definition own_fields (row : Row) : gmap string nat := Cli.scan_cells ∅ 1 row.

(** The test the code applies to a cell for the [date_processed] column:
    a non-empty text that, trimmed, contains one of the two spellings. *)
Definition date_processed_label (value : CellValue) : bool :=
  match value with
  | Text s =>
      truthy value
      && (PyStr.contains "Date processed" (PyStr.strip s)
          || PyStr.contains "Date Processed" (PyStr.strip s))
  | _ => false
  end.

(** The phrase is in the trimmed text of the cell in some capitalisation. *)
Definition mentions_date_processed (value : CellValue) : bool :=
  match value with
  | Text s => PyStr.contains "date processed" (PyStr.lower (PyStr.strip s))
  | _ => false
  end.

(** The cells the first loop visits before it stops, in its order. *)
Definition scanned_cells (ws : Worksheet) : list (nat * CellValue) :=
  let last_row := default 5%nat (snd (Cli.find_headers ws)) in
  concat (row_cells <$> take last_row (Cli.first_rows ws)).

(** The result [process_transaction_file] builds from the state of the row
    loop. *)
Definition result_of (filename : string) (file_month file_year : Z)
    (following : Z * Z) (acc : Totals) : Result :=
  {| file_month := file_month;
     file_year := file_year;
     following_month := fst following;
     following_year := snd following;
     total_debit := acc_debit acc;
     total_return := acc_return acc;
     net_amount := (acc_debit acc - acc_return acc)%float;
     transactions := acc_filtered acc;
     all_transactions := acc_all acc;
     filename := filename |}.

(** How the web entry point reports what the command-line one returns. *)
Definition reported_as (web : option Result * option string)
    (cli : option Result) : Prop :=
  fst web = cli
  /\ match cli with
     | Some _ => snd web = None
     | None => exists message, snd web = Some message
     end.

(** ** Example workbooks *)

Module Examples.

Definition header : Row :=
  [Text "Date"; Text "ACH_DEBIT_AMOUNT"; Text "ACH_RETURN_AMOUNT";
   Text "Date processed"; Text "CN"; Text "DN"].

(** Scenario C, then a dash, an unreadable date, an empty date cell and
    a row of the file's own month. *)
Definition september : Worksheet :=
  [ [Text "dLocal report"];
    header;
    [Text "9/29/2025"; Number 100; Number 30; Text "10/01/2025"; Text "c1"; Text "d1"];
    [Text "9/30/2025"; Text "50"; Text "-"; Text "10/02/25"; Text "c2"; Text "d2"];
    [Text "9/30/2025"; Text "70"; Text "5"; Text "pending"; Text "c3"; Text "d3"];
    [Text "9/30/2025"; Text "70"; Text "5"; EmptyCell; Text "c4"; Text "d4"];
    [Text "9/12/2025"; Text "7"; Text "5"; Text "2025-09-30"; Text "c5"; Text "d5"] ].

Definition september_name : string := "09 Control Gusto Inc Septiembre 2025.xlsx".

(** A debit cell that is no number, in a row of the following month. *)
Definition bad_amount : Worksheet :=
  [ header;
    [Text "9/30/2025"; Text "abc"; Text "1,234.50"; Text "10/03/2025"; Text "c1"; Text "d1"] ].

(** A debit cell with the text "nan", in a row of the following month. *)
Definition nan_amount : Worksheet :=
  [ header;
    [Text "9/30/2025"; Text "nan"; Text "-"; Text "10/03/2025"; Text "c1"; Text "d1"] ].

(** The processed-date label in capitals. *)
Definition capitals : Worksheet :=
  [ [Text "Date"; Text "ACH_DEBIT_AMOUNT"; Text "ACH_RETURN_AMOUNT"; Text "DATE PROCESSED"];
    [Text "9/30/2025"; Text "10"; Text "0"; Text "10/03/2025"] ].

(** The labels on three rows, one each. *)
Definition spread : Worksheet :=
  [ [Text "Date processed"];
    [EmptyCell; Text "ACH_DEBIT_AMOUNT"];
    [EmptyCell; EmptyCell; Text "ACH_RETURN_AMOUNT"];
    [Text "10/03/2025"; Text "10"; Text "4"] ].

(** The processed-date label alone: fewer than three fields in rows 1
    to 5. *)
Definition lone_label : Worksheet :=
  [ [Text "Date processed"];
    [Text "10/03/2025"] ].

(** Three fields, the debit column not among them. *)
Definition no_debit_column : Worksheet :=
  [ [Text "Date"; Text "ACH_RETURN_AMOUNT"; Text "Date processed"];
    [Text "9/30/2025"; Text "5"; Text "10/03/2025"] ].

(** One row of October 2025 under a header. *)
Definition october_row : Worksheet :=
  [ header;
    [Text "9/30/2025"; Text "100"; Text "0"; Text "10/05/2025"; Text "c1"; Text "d1"] ].

Definition positive_result : Result :=
  {| file_month := 9; file_year := 2025;
     following_month := 10; following_year := 2025;
     total_debit := 150; total_return := 30; net_amount := 120;
     transactions := []; all_transactions := [];
     filename := september_name |}.

Definition negative_result : Result :=
  {| file_month := 12; file_year := 2024;
     following_month := 1; following_year := 2025;
     total_debit := 10; total_return := 35.5; net_amount := (-25.5);
     transactions := []; all_transactions := [];
     filename := "Diciembre 2024.xlsx" |}.

(** The three columns of [header] the row loop needs, with the optional
    ones. *)
Definition columns : gmap string nat :=
  <["dn" := 6%nat]> (<["cn" := 5%nat]> (<["date" := 1%nat]>
    (<["date_processed" := 4%nat]> (<["return_amount" := 3%nat]>
      (<["debit_amount" := 2%nat]> ∅))))).

End Examples.

(** ** File names: app.py [allowed_file], [upload_file], [download_je_only]
    and the [main] of automate_dlocal_pending.py *)

Module Names.

(** [s.rsplit('.', 1)[1]]: the text after the last dot; [None] when [s]
    has no dot (the list has one element then). *)
Fixpoint after_last_dot (s : string) : option string :=
  match s with
  | "" => None
  | String c rest =>
      match after_last_dot rest with
      | Some extension => Some extension
      | None => if Ascii.eqb c "." then Some rest else None
      end
  end.

Definition ALLOWED_EXTENSIONS : list string := ["xlsx"; "xls"].

(** [allowed_file]; the right operand of [and] is evaluated only for a
    name with a dot. *)
Definition allowed_file (filename : string) : bool :=
  PyStr.contains "." filename
  && match after_last_dot filename with
     | Some extension =>
         bool_decide (PyStr.lower extension ∈ ALLOWED_EXTENSIONS)
     | None => false
     end.

(** [s.replace(old, new)] for a non-empty [old]: the occurrences of [old]
    found from left to right, none overlapping the one before.  [skip]
    counts the characters of an occurrence still to pass over. *)
Fixpoint replace_from (old new : string) (skip : nat) (s : string) : string :=
  match s with
  | "" => ""
  | String c rest =>
      match skip with
      | S skip' => replace_from old new skip' rest
      | O =>
          if String.prefix old s
          then new ++ replace_from old new (String.length old - 1) rest
          else String c (replace_from old new 0 rest)
      end
  end.

Definition replace (old new s : string) : string := replace_from old new 0 s.

(** [main]: [input_file.replace('.xlsx', '_Summary_JE.xlsx')], the path
    the report is saved to. *)
Definition output_file (input_file : string) : string :=
  replace ".xlsx" "_Summary_JE.xlsx" input_file.

(** [datetime.now().strftime('%Y%m%d_%H%M%S')], for a year of four
    digits. *)
Definition timestamp (now : datetime) : string :=
  PyStr.str_int (dt_year now) ++ PyStr.format_02d (dt_month now)
  ++ PyStr.format_02d (dt_day now) ++ "_" ++ PyStr.format_02d (dt_hour now)
  ++ PyStr.format_02d (dt_minute now) ++ PyStr.format_02d (dt_second now).

(** [upload_file]: [f"{timestamp}_{filename}"], the name the upload is
    saved under; [filename] is the name [secure_filename] returned.  The
    path handed to [process_transaction_file] is this name in the upload
    folder, and [Path(filepath).name] is this name again ([secure_filename]
    leaves no path separator). *)
Definition unique_filename (now : datetime) (filename : string) : string :=
  timestamp now ++ "_" ++ filename.

(** [upload_file]:
    [f"{timestamp}_{filename.replace('.xlsx', '_Summary_JE.xlsx')}"] *)
Definition output_filename (now : datetime) (filename : string) : string :=
  timestamp now ++ "_" ++ replace ".xlsx" "_Summary_JE.xlsx" filename.

(** [download_je_only]:
    [filename.replace('_Summary_JE.xlsx', '_JE_Only.xlsx')], the name the
    journal-only workbook is saved under, in the folder of the report. *)
Definition je_filename (filename : string) : string :=
  replace "_Summary_JE.xlsx" "_JE_Only.xlsx" filename.

End Names.

(** The text from character [n] on. *)
Fixpoint string_drop (n : nat) (s : string) : string :=
  match n, s with
  | O, _ => s
  | S n', "" => ""
  | S n', String _ rest => string_drop n' rest
  end.

(** No proper suffix of [pattern] is a prefix of it: two occurrences of
    [pattern] in a text cannot overlap. *)
Definition border_free (pattern : string) : bool :=
  forallb (fun k => negb (String.prefix (string_drop k pattern) pattern))
    (seq 1 (String.length pattern - 1)).

(** The characters of a text all satisfy [f]. *)
Fixpoint string_forall (f : ascii -> bool) (s : string) : bool :=
  match s with
  | "" => true
  | String c rest => f c && string_forall f rest
  end.

(** A digit, a dash or an underscore: the characters of a time stamp. *)
Definition stamp_char (c : ascii) : bool :=
  PyStr.is_digit c || Ascii.eqb c "-" || Ascii.eqb c "_".

(** * Properties *)

(** ** Strings *)

Lemma append_cons (c : ascii) (s t : string) :
  String c s ++ t = String c (s ++ t).
Proof. reflexivity. Qed.

Lemma append_nil (t : string) : "" ++ t = t.
Proof. reflexivity. Qed.

Lemma append_inv_length (pre pre' x y : string) :
  pre ++ x = pre' ++ y -> String.length pre = String.length pre' ->
  pre = pre' /\ x = y.
Proof.
  revert pre'. induction pre as [|c pre IH]; intros [|c' pre'] Heq Hlen;
    try discriminate.
  - split; [reflexivity | exact Heq].
  - rewrite !append_cons in Heq. injection Heq as -> Heq.
    injection Hlen as Hlen. destruct (IH pre' Heq Hlen) as [-> ->].
    split; reflexivity.
Qed.

Lemma prefix_iff (p s : string) :
  String.prefix p s = true <-> exists post, s = p ++ post.
Proof.
  revert s. induction p as [|a p IH]; intros s.
  - split; [intros _; exists s; reflexivity | intros _; destruct s; reflexivity].
  - destruct s as [|b s]; simpl.
    + split; [discriminate | intros [post H]; discriminate].
    + destruct (ascii_dec a b) as [->|Hne].
      * rewrite IH. split; intros [post H]; exists post;
          rewrite append_cons in *; congruence.
      * split; [discriminate | intros [post H]; rewrite append_cons in H; congruence].
Qed.

Lemma contains_cons (sub : string) (c : ascii) (s : string) :
  PyStr.contains sub (String c s)
  = String.prefix sub (String c s) || PyStr.contains sub s.
Proof. reflexivity. Qed.

(** [contains] is the substring test. *)
Lemma contains_iff (sub s : string) :
  PyStr.contains sub s = true <-> occurs sub s.
Proof.
  induction s as [|c s IH].
  - change (PyStr.contains sub "") with (String.prefix sub "" || false).
    rewrite orb_false_r, prefix_iff. split.
    + intros [post H]. exists "", post. exact H.
    + intros [pre [post H]]. destruct pre.
      * exists post. exact H.
      * rewrite append_cons in H. discriminate.
  - rewrite contains_cons, orb_true_iff, prefix_iff, IH. split.
    + intros [[post H]|[pre [post H]]].
      * exists "", post. exact H.
      * exists (String c pre), post. rewrite append_cons. congruence.
    + intros [pre [post H]]. destruct pre as [|c' pre].
      * left. exists post. exact H.
      * right. exists pre, post. rewrite append_cons in H. congruence.
Qed.

Lemma contains_false_iff (sub s : string) :
  PyStr.contains sub s = false <-> ~ occurs sub s.
Proof.
  rewrite <- contains_iff. destruct (PyStr.contains sub s); split; intros H;
    try reflexivity; try discriminate; try (intros H'; discriminate).
  exfalso. apply H. reflexivity.
Qed.

Lemma occurs_at_occurs (sub s : string) (i : nat) : occurs_at sub s i -> occurs sub s.
Proof. intros (pre & post & H & _). exists pre, post. exact H. Qed.

Lemma occurs_at_cons (sub : string) (c : ascii) (s : string) (i : nat) :
  occurs_at sub (String c s) (S i) <-> occurs_at sub s i.
Proof.
  split.
  - intros (pre & post & H & Hlen). destruct pre as [|c' pre]; [discriminate|].
    rewrite append_cons in H. injection H as -> H. injection Hlen as Hlen.
    exists pre, post. split; assumption.
  - intros (pre & post & H & Hlen). exists (String c pre), post.
    rewrite append_cons, H. split; [reflexivity | simpl; congruence].
Qed.

(** ** The year pattern *)

Lemma match_20dd_sound (s g : string) :
  PyStr.match_20dd s = Some g -> year_token g /\ occurs_at g s 0.
Proof.
  destruct s as [|c1 [|c2 [|d1 [|d2 rest]]]]; try discriminate.
  unfold PyStr.match_20dd.
  destruct (Ascii.eqb c1 "2" && Ascii.eqb c2 "0" && PyStr.is_digit d1
            && PyStr.is_digit d2) eqn:E; [|discriminate].
  intros H. injection H as <-.
  apply andb_true_iff in E as [E E4]. apply andb_true_iff in E as [E E3].
  apply andb_true_iff in E as [E1 E2].
  apply Ascii.eqb_eq in E1 as ->. apply Ascii.eqb_eq in E2 as ->.
  split.
  - exists d1, d2. auto.
  - exists "", rest. split; reflexivity.
Qed.

Lemma match_20dd_complete (g post : string) :
  year_token g -> PyStr.match_20dd (g ++ post) = Some g.
Proof.
  intros (d1 & d2 & -> & H1 & H2). rewrite !append_cons, append_nil.
  unfold PyStr.match_20dd. rewrite H1, H2. reflexivity.
Qed.

Lemma re_search_20dd_eq (s : string) :
  PyStr.re_search_20dd s =
  match PyStr.match_20dd s with
  | Some g => Some g
  | None =>
      match s with
      | "" => None
      | String _ rest => PyStr.re_search_20dd rest
      end
  end.
Proof. destruct s; reflexivity. Qed.

Lemma re_search_20dd_sound (s g : string) :
  PyStr.re_search_20dd s = Some g -> first_year_token s g.
Proof.
  revert g. induction s as [|c s IH]; intros g; rewrite re_search_20dd_eq.
  - discriminate.
  - destruct (PyStr.match_20dd (String c s)) as [g0|] eqn:E.
    + intros H. injection H as <-. apply match_20dd_sound in E as [Hy Ho].
      exists 0%nat. split; [exact Ho|]. split; [exact Hy|]. intros; lia.
    + intros H. destruct (IH g H) as (i & Ho & Hy & Hmin).
      exists (S i). split; [apply occurs_at_cons; exact Ho|].
      split; [exact Hy|]. intros [|j] g' Hy' Ho'.
      * destruct Ho' as (pre & post & Hs & Hlen).
        destruct pre; [|discriminate]. rewrite append_nil in Hs.
        rewrite Hs, (match_20dd_complete g' post Hy') in E. discriminate.
      * apply occurs_at_cons in Ho'. specialize (Hmin j g' Hy' Ho'). lia.
Qed.

Lemma re_search_20dd_none (s : string) :
  PyStr.re_search_20dd s = None -> no_year_token s.
Proof.
  induction s as [|c s IH]; rewrite re_search_20dd_eq.
  - intros _ g (d1 & d2 & -> & _) (pre & post & H).
    destruct pre; rewrite ?append_cons, ?append_nil in H; discriminate.
  - destruct (PyStr.match_20dd (String c s)) as [g0|] eqn:E; [discriminate|].
    intros H g Hy (pre & post & Hs). destruct pre as [|c' pre].
    + rewrite append_nil in Hs.
      rewrite Hs, (match_20dd_complete g post Hy) in E. discriminate.
    + rewrite append_cons in Hs. injection Hs as -> Hs.
      apply (IH H g Hy). exists pre, post. exact Hs.
Qed.

Lemma year_token_length (g : string) : year_token g -> String.length g = 4%nat.
Proof. intros (d1 & d2 & -> & _). reflexivity. Qed.

Lemma append_inv_token (g g' post post' : string) :
  year_token g -> year_token g' -> g ++ post = g' ++ post' -> g = g'.
Proof.
  intros (d1 & d2 & -> & _) (d1' & d2' & -> & _) H.
  rewrite !append_cons in H. congruence.
Qed.

Lemma first_year_token_unique (s g g' : string) :
  first_year_token s g -> first_year_token s g' -> g = g'.
Proof.
  intros (i & Ho & Hy & Hmin) (i' & Ho' & Hy' & Hmin').
  assert (i = i') as <- by (specialize (Hmin _ _ Hy' Ho'); specialize (Hmin' _ _ Hy Ho); lia).
  destruct Ho as (pre & post & Hs & Hlen). destruct Ho' as (pre' & post' & Hs' & Hlen').
  rewrite Hs' in Hs. symmetry in Hs.
  destruct (append_inv_length pre pre' _ _ Hs) as [_ H]; [congruence|].
  exact (append_inv_token _ _ _ _ Hy Hy' H).
Qed.

(** [re.search] returns the first year token, and [None] when the text
    has none. *)
Lemma re_search_20dd_first (s g : string) :
  PyStr.re_search_20dd s = Some g <-> first_year_token s g.
Proof.
  split; [apply re_search_20dd_sound|].
  intros H. destruct (PyStr.re_search_20dd s) as [g0|] eqn:E.
  - f_equal. apply (first_year_token_unique s); [apply re_search_20dd_sound; exact E | exact H].
  - destruct H as (i & Ho & Hy & _).
    destruct (re_search_20dd_none s E g Hy (occurs_at_occurs _ _ _ Ho)).
Qed.

Lemma re_search_20dd_absent (s : string) :
  PyStr.re_search_20dd s = None <-> no_year_token s.
Proof.
  split; [apply re_search_20dd_none|].
  intros H. destruct (PyStr.re_search_20dd s) as [g|] eqn:E; [|reflexivity].
  apply re_search_20dd_sound in E as (i & Ho & Hy & _).
  destruct (H g Hy (occurs_at_occurs _ _ _ Ho)).
Qed.

(** The number a year token denotes. *)
Lemma int_of_year_token (g : string) :
  year_token g -> (2000 <= PyStr.int_of_digits g <= 2099)%Z.
Proof.
  intros (d1 & d2 & -> & H1 & H2).
  unfold PyStr.is_digit in *.
  apply andb_true_iff in H1 as [H1a H1b]. apply andb_true_iff in H2 as [H2a H2b].
  apply Nat.leb_le in H1a, H1b, H2a, H2b.
  unfold PyStr.int_of_digits. cbn [list_ascii_of_string fold_left].
  unfold PyStr.digit_value.
  change (nat_of_ascii "2") with 50%nat. change (nat_of_ascii "0") with 48%nat.
  generalize dependent (nat_of_ascii d1). generalize dependent (nat_of_ascii d2).
  intros; lia.
Qed.

(** ** Period extraction *)

Lemma first_month_first (filename_lower name : string) (M : Z)
    (before after : list (string * Z)) :
  PyStr.contains name filename_lower = true ->
  Forall (fun entry => PyStr.contains (fst entry) filename_lower = false) before ->
  Cli.first_month filename_lower (before ++ (name, M) :: after)%list = Some M.
Proof.
  intros Hin Hbefore. induction Hbefore as [|[n k] before Hn _ IH]; simpl.
  - rewrite Hin. reflexivity.
  - simpl in Hn. rewrite Hn. exact IH.
Qed.

Lemma first_month_none (filename_lower : string) (table : list (string * Z)) :
  Cli.first_month filename_lower table = None <->
  Forall (fun entry => PyStr.contains (fst entry) filename_lower = false) table.
Proof.
  induction table as [|[n k] table IH]; simpl.
  - split; [constructor | reflexivity].
  - destruct (PyStr.contains n filename_lower) eqn:E.
    + split; [discriminate|]. intros H. inversion H; subst. simpl in *. congruence.
    + rewrite IH. split; [intros H; constructor; assumption|].
      intros H. inversion H; assumption.
Qed.

Lemma month_mapping_range :
  Forall (fun entry => (1 <= snd entry <= 12)%Z) Cli.month_mapping.
Proof. unfold Cli.month_mapping. repeat constructor; simpl; lia. Qed.

(** [extract_month_from_filename] answers with a month from 1 to 12, so
    the test [if not file_month] of the caller is the test for [None]. *)
Lemma extract_month_range (now : Z) (filename : string) (month year : Z) :
  Cli.extract_month_from_filename now filename = Some (month, year) ->
  (1 <= month <= 12)%Z.
Proof.
  unfold Cli.extract_month_from_filename.
  destruct (Cli.first_month _ _) as [m|] eqn:E; [|discriminate].
  intros H. injection H as <- _.
  pose proof month_mapping_range as Hall.
  revert E Hall. generalize Cli.month_mapping.
  induction l as [|[n k] l IH]; simpl; [discriminate|].
  intros E Hall. inversion Hall; subst. simpl in *.
  destruct (PyStr.contains n _).
  - injection E as <-. assumption.
  - apply IH; assumption.
Qed.

(** C4, as the code has it.  For a file name in which the first entry of
    the month table (Spanish names from enero to diciembre, then English
    ones from january to december) that occurs in the lower-cased name is
    a name of month [M]: the extracted period is [M] with the number of
    the first year token [20dd] of the name, or with the current year when
    the name has no year token; and the following period of [(M, Y)] is
    [(M + 1, Y)] when [M < 12] and [(1, Y + 1)] otherwise. *)
Theorem period_extraction (now : Z) (filename name : string) (M : Z)
    (before after : list (string * Z)) :
  Cli.month_mapping = (before ++ (name, M) :: after)%list ->
  occurs name (PyStr.lower filename) ->
  Forall (fun entry => ~ occurs (fst entry) (PyStr.lower filename)) before ->
  (forall g, first_year_token filename g ->
     Cli.extract_month_from_filename now filename = Some (M, PyStr.int_of_digits g))
  /\ (no_year_token filename ->
      Cli.extract_month_from_filename now filename = Some (M, now))
  /\ (forall Y,
        Cli.get_following_month M Y
        = if (M <? 12)%Z then (M + 1, Y)%Z else (1, Y + 1)%Z).
Proof.
  intros Htable Hname Hbefore.
  assert (Cli.first_month (PyStr.lower filename) Cli.month_mapping = Some M) as Hfirst.
  { rewrite Htable. apply first_month_first.
    - apply contains_iff. exact Hname.
    - eapply Forall_impl; [exact Hbefore|].
      intros entry H. apply contains_false_iff. exact H. }
  assert (1 <= M <= 12)%Z as HM.
  { pose proof month_mapping_range as Hall. rewrite Htable in Hall.
    apply Forall_app in Hall as [_ Hall]. inversion Hall; subst. assumption. }
  unfold Cli.extract_month_from_filename. rewrite Hfirst.
  split; [|split].
  - intros g Hg. apply re_search_20dd_first in Hg. rewrite Hg. reflexivity.
  - intros Hno. apply re_search_20dd_absent in Hno. rewrite Hno. reflexivity.
  - intros Y. unfold Cli.get_following_month.
    destruct (M =? 12)%Z eqn:E12; destruct (M <? 12)%Z eqn:Elt; try reflexivity; lia.
Qed.

(** Scenario A: "09 Control Gusto Inc Septiembre 2025.xlsx". *)
Lemma period_extraction_witness :
  Cli.extract_month_from_filename 2030 Examples.september_name = Some (9, 2025)%Z
  /\ Cli.get_following_month 9 2025 = (10, 2025)%Z.
Proof.
  destruct (period_extraction 2030 Examples.september_name "septiembre" 9
              (take 8 Cli.month_mapping) (drop 9 Cli.month_mapping))
    as (Hyear & _ & Hnext).
  - reflexivity.
  - apply contains_iff. reflexivity.
  - repeat constructor; apply contains_false_iff; reflexivity.
  - split.
    + apply (Hyear "2025"). apply re_search_20dd_first. reflexivity.
    + apply (Hnext 2025%Z).
Defined.

(** C4 as it is worded fails: a name with two month names.  "abril" is a
    recognized token of "Control Marzo-Abril 2025.xlsx", whose first year
    token is 2025, and the extracted period is (3, 2025), not (4, 2025):
    "marzo" comes first in the table. *)
Lemma period_extraction_two_months :
  ~ (forall (now : Z) (filename name : string) (M : Z) (g : string),
        (name, M) ∈ Cli.month_mapping ->
        occurs name (PyStr.lower filename) ->
        first_year_token filename g ->
        Cli.extract_month_from_filename now filename
        = Some (M, PyStr.int_of_digits g)).
Proof.
  intros H.
  specialize (H 2030%Z "Control Marzo-Abril 2025.xlsx" "abril" 4%Z "2025").
  assert (Cli.extract_month_from_filename 2030 "Control Marzo-Abril 2025.xlsx"
          = Some (3, 2025)%Z) as E by reflexivity.
  rewrite E in H. discriminate H.
  - unfold Cli.month_mapping. do 3 right. left.
  - apply contains_iff. reflexivity.
  - apply re_search_20dd_first. reflexivity.
Qed.

(** Scenario B: a name with "Diciembre 2025" gives the following period
    (1, 2026). *)
Example december_rolls_over :
  Cli.extract_month_from_filename 2030 "12 Control Diciembre 2025.xlsx"
  = Some (12, 2025)%Z
  /\ Cli.get_following_month 12 2025 = (1, 2026)%Z.
Proof. split; reflexivity. Qed.

(** ** The journal entry *)

Lemma monthrange_ndays_range (year month last_day : Z) :
  monthrange_ndays year month = Return last_day ->
  (1 <= month <= 12 /\ 28 <= last_day <= 31)%Z.
Proof.
  unfold monthrange_ndays.
  destruct ((1 <=? month)%Z && (month <=? 12)%Z) eqn:E; [|discriminate].
  apply andb_true_iff in E as [E1 E2]. apply Z.leb_le in E1, E2.
  intros H. injection H as <-. split; [lia|].
  assert (month = 1 \/ month = 2 \/ month = 3 \/ month = 4 \/ month = 5
          \/ month = 6 \/ month = 7 \/ month = 8 \/ month = 9 \/ month = 10
          \/ month = 11 \/ month = 12)%Z as Hm by lia.
  destruct (isleap year);
    repeat (destruct Hm as [->|Hm]; [simpl; lia|]); subst; simpl; lia.
Qed.

Lemma monthrange_ndays_total (year month : Z) :
  (1 <= month <= 12)%Z -> exists last_day, monthrange_ndays year month = Return last_day.
Proof.
  intros H. unfold monthrange_ndays.
  replace ((1 <=? month)%Z && (month <=? 12)%Z) with true; [eexists; reflexivity|].
  symmetry. apply andb_true_iff. split; apply Z.leb_le; lia.
Qed.

(** The two copies of the journal block write the same rows. *)
Lemma web_journal_eq (result : Result) :
  Web.create_summary_and_je_journal result = Cli.create_summary_and_je_journal result.
Proof.
  unfold Web.create_summary_and_je_journal, Cli.create_summary_and_je_journal.
  destruct (file_month result =? 12)%Z eqn:E; [|reflexivity].
  apply Z.eqb_eq in E. rewrite E. reflexivity.
Qed.

Lemma cli_journal_unfold (result : Result) (last_day : Z) :
  monthrange_ndays (file_year result) (file_month result) = Return last_day ->
  Cli.create_summary_and_je_journal result =
  let net := net_amount result in
  let memo := "dLocal Pending Debits " ++ PyStr.format_02d (file_month result)
              ++ "." ++ PyStr.str_int (file_year result) in
  let date_str := PyStr.str_int (file_month result) ++ "/" ++ PyStr.str_int last_day
                  ++ "/" ++ PyStr.str_int (file_year result) in
  let reversal_date_str := PyStr.str_int (following_month result) ++ "/1/"
                           ++ PyStr.str_int (following_year result) in
  if (0 <? net)%float then
    Return
      [Line (Cli.journal_line (Some (abs net)) None date_str reversal_date_str
               memo Cli.customer_funds_obligation);
       Line (Cli.journal_line None (Some (abs net)) date_str reversal_date_str
               memo Cli.other_current_liabilities)]
  else if (net <? 0)%float then
    Return
      [Line (Cli.journal_line None (Some (abs net)) date_str reversal_date_str
               memo Cli.customer_funds_obligation);
       Line (Cli.journal_line (Some (abs net)) None date_str reversal_date_str
               memo Cli.other_current_liabilities)]
  else
    Return [Notice "No journal entry required (Net Amount = 0)"].
Proof.
  intros H. unfold Cli.create_summary_and_je_journal.
  destruct (file_month result =? 12)%Z eqn:E.
  - apply Z.eqb_eq in E. rewrite E in *. rewrite H. reflexivity.
  - rewrite H. reflexivity.
Qed.

(** C1.  With [last_day] the number of days [calendar.monthrange] gives
    for the month of the source period: when the net amount is positive
    the journal block of either entry point has line 1 = debit [abs net]
    to the Customer Funds Obligation account and line 2 = credit [abs net]
    to the Other Current Liabilities (accrued) account; when it is
    negative the same two accounts with the columns flipped; and every
    line written has date = month/last day/year of the source period,
    reversal date = the 1st of the following period and memo = the label
    "dLocal Pending Debits " followed by the source period as two-digit
    month, a dot and the year. *)
Theorem journal_entry_postcondition
    (journal : Result -> outcome (list JournalRow)) (result : Result)
    (last_day : Z) :
  journal = Cli.create_summary_and_je_journal
  \/ journal = Web.create_summary_and_je_journal ->
  monthrange_ndays (file_year result) (file_month result) = Return last_day ->
  let net := net_amount result in
  let date :=
    PyStr.str_int (file_month result) ++ "/" ++ PyStr.str_int last_day
    ++ "/" ++ PyStr.str_int (file_year result) in
  let reversal :=
    PyStr.str_int (following_month result) ++ "/1/"
    ++ PyStr.str_int (following_year result) in
  let memo :=
    "dLocal Pending Debits " ++ PyStr.format_02d (file_month result)
    ++ "." ++ PyStr.str_int (file_year result) in
  let line (debit credit : option float) (account : string) :=
    {| je_debit := debit; je_credit := credit;
       je_date := date; je_reversal_date := reversal; je_memo := memo;
       je_account := account;
       je_department := "0000 Corporate"; je_location := "1 San Francisco";
       je_name := None; je_subsidiary := "Gusto Inc Global : Gusto Inc US";
       je_entry_memo := memo; je_class := "601 Horizontal" |} in
  let obligation := "22010 - Customer Funds Obligation : Customer Funds Liability" in
  let accrued := "21017 - Other Current Liabilities : Accrued Liabilities - Platform" in
  ((0 <? net)%float = true ->
     journal result
     = Return [Line (line (Some (abs net)) None obligation);
               Line (line None (Some (abs net)) accrued)])
  /\ ((net <? 0)%float = true ->
      journal result
      = Return [Line (line None (Some (abs net)) obligation);
                Line (line (Some (abs net)) None accrued)])
  /\ (exists rows,
        journal result = Return rows
        /\ forall l, l ∈ data_lines rows ->
             je_date l = date /\ je_reversal_date l = reversal /\ je_memo l = memo).
Proof.
  intros Hjournal Hlast. cbv zeta.
  assert (journal result = Cli.create_summary_and_je_journal result) as ->.
  { destruct Hjournal as [->| ->]; [reflexivity | apply web_journal_eq]. }
  rewrite (cli_journal_unfold result last_day Hlast). cbv zeta.
  split; [|split].
  - intros Hpos. rewrite Hpos. reflexivity.
  - intros Hneg.
    destruct (0 <? net_amount result)%float eqn:Hpos.
    + exfalso. revert Hpos Hneg. rewrite !ltb_spec.
      replace (Prim2SF 0) with (S754_zero false) by reflexivity.
      destruct (Prim2SF (net_amount result)) as [s|s| |s m e]; cbn;
        try destruct s; cbn; discriminate.
    + rewrite Hneg. reflexivity.
  - destruct (0 <? net_amount result)%float; [|destruct (net_amount result <? 0)%float];
      eexists; (split; [reflexivity|]); cbn; intros l Hl;
      repeat (apply elem_of_cons in Hl as [->|Hl]; [repeat split|]);
      inversion Hl.
Qed.

(** Scenario C: net 120 for September 2025. *)
Lemma journal_entry_postcondition_witness :
  Cli.create_summary_and_je_journal Examples.positive_result
  = Return
      [Line {| je_debit := Some 120%float; je_credit := None;
               je_date := "9/30/2025"; je_reversal_date := "10/1/2025";
               je_memo := "dLocal Pending Debits 09.2025";
               je_account := "22010 - Customer Funds Obligation : Customer Funds Liability";
               je_department := "0000 Corporate"; je_location := "1 San Francisco";
               je_name := None; je_subsidiary := "Gusto Inc Global : Gusto Inc US";
               je_entry_memo := "dLocal Pending Debits 09.2025";
               je_class := "601 Horizontal" |};
       Line {| je_debit := None; je_credit := Some 120%float;
               je_date := "9/30/2025"; je_reversal_date := "10/1/2025";
               je_memo := "dLocal Pending Debits 09.2025";
               je_account := "21017 - Other Current Liabilities : Accrued Liabilities - Platform";
               je_department := "0000 Corporate"; je_location := "1 San Francisco";
               je_name := None; je_subsidiary := "Gusto Inc Global : Gusto Inc US";
               je_entry_memo := "dLocal Pending Debits 09.2025";
               je_class := "601 Horizontal" |}].
Proof.
  destruct (journal_entry_postcondition Cli.create_summary_and_je_journal
              Examples.positive_result 30%Z (or_introl eq_refl) eq_refl)
    as (Hpos & _ & _).
  apply Hpos. reflexivity.
Defined.

Example negative_net_flips_columns :
  data_lines <$> Web.create_summary_and_je_journal Examples.negative_result
  = Return
      [Cli.journal_line None (Some 25.5%float) "12/31/2024" "1/1/2025"
         "dLocal Pending Debits 12.2024" Cli.customer_funds_obligation;
       Cli.journal_line (Some 25.5%float) None "12/31/2024" "1/1/2025"
         "dLocal Pending Debits 12.2024" Cli.other_current_liabilities].
Proof. reflexivity. Qed.

(** *** Balance *)

(** A float is above zero, below zero, equal to zero, or not a number. *)
Lemma float_sign_cases (x : float) :
  ((0 <? x)%float = true /\ (x <? 0)%float = false
   /\ (x =? 0)%float = false /\ is_nan x = false)
  \/ ((0 <? x)%float = false /\ (x <? 0)%float = true
      /\ (x =? 0)%float = false /\ is_nan x = false)
  \/ ((0 <? x)%float = false /\ (x <? 0)%float = false
      /\ (x =? 0)%float = true /\ is_nan x = false)
  \/ ((0 <? x)%float = false /\ (x <? 0)%float = false
      /\ (x =? 0)%float = false /\ is_nan x = true).
Proof.
  unfold is_nan. rewrite !ltb_spec, !FloatAxioms.eqb_spec.
  replace (Prim2SF 0) with (S754_zero false) by reflexivity.
  unfold SFltb, SFeqb.
  destruct (Prim2SF x) as [s|s| |s m e]; cbn; try destruct s; cbn;
    rewrite ?Z.compare_refl, ?Pos.compare_cont_refl; cbn; tauto.
Qed.

(** X1.  The balance of the journal block for every net amount that is
    a number: no data line exactly when the net amount is zero, otherwise
    two lines, each with exactly one of debit and credit, the debits and
    the credits both being [abs net] once.  When the net amount is not a
    number the block has no data line either. *)
Lemma journal_entry_balance
    (journal : Result -> outcome (list JournalRow)) (result : Result)
    (last_day : Z) :
  journal = Cli.create_summary_and_je_journal
  \/ journal = Web.create_summary_and_je_journal ->
  monthrange_ndays (file_year result) (file_month result) = Return last_day ->
  exists rows,
    journal result = Return rows
    /\ (data_lines rows = [] <->
        (net_amount result =? 0)%float = true \/ is_nan (net_amount result) = true)
    /\ (data_lines rows <> [] ->
        length (data_lines rows) = 2%nat
        /\ Forall (fun l => (is_Some (je_debit l) /\ je_credit l = None)
                            \/ (je_debit l = None /\ is_Some (je_credit l)))
             (data_lines rows)
        /\ omap je_debit (data_lines rows) = [abs (net_amount result)]
        /\ omap je_credit (data_lines rows) = [abs (net_amount result)]).
Proof.
  intros Hjournal Hlast.
  assert (journal result = Cli.create_summary_and_je_journal result) as ->.
  { destruct Hjournal as [->| ->]; [reflexivity | apply web_journal_eq]. }
  rewrite (cli_journal_unfold result last_day Hlast). cbv zeta.
  destruct (float_sign_cases (net_amount result))
    as [(-> & _ & E0 & En)|[(-> & -> & E0 & En)|[(-> & -> & E0 & En)|(-> & -> & E0 & En)]]];
    eexists; (split; [reflexivity|]); rewrite E0, En; cbn.
  - split; [split; [discriminate | intros [?|?]; discriminate]|].
    intros _. split; [reflexivity|]. split; [|split; reflexivity].
    constructor; [left; cbn; eauto | constructor; [right; cbn; eauto | constructor]].
  - split; [split; [discriminate | intros [?|?]; discriminate]|].
    intros _. split; [reflexivity|]. split; [|split; reflexivity].
    constructor; [right; cbn; eauto | constructor; [left; cbn; eauto | constructor]].
  - split; [split; auto|]. intros H. destruct H. reflexivity.
  - split; [split; auto|]. intros H. destruct H. reflexivity.
Qed.

Lemma journal_entry_balance_witness :
  exists rows,
    Cli.create_summary_and_je_journal Examples.positive_result = Return rows
    /\ length (data_lines rows) = 2%nat
    /\ omap je_debit (data_lines rows) = [120%float]
    /\ omap je_credit (data_lines rows) = [120%float].
Proof.
  destruct (journal_entry_balance Cli.create_summary_and_je_journal
              Examples.positive_result 30%Z (or_introl eq_refl) eq_refl)
    as (rows & Hrows & Hempty & Hlines).
  exists rows. split; [exact Hrows|].
  destruct Hlines as (Hlength & _ & Hdebit & Hcredit).
  - intros E. apply Hempty in E. destruct E as [E|E]; vm_compute in E; discriminate E.
  - split; [exact Hlength|]. split; [exact Hdebit | exact Hcredit].
Defined.

(** C2 at a net amount that is not a number.  The workbook has one row
    of the following month whose debit cell is the text "nan"; [float]
    reads it as a NaN, the total and the net amount are NaN, neither
    [net > 0] nor [net < 0] holds, and the block gets the notice of a zero
    net amount and no data line although [net == 0] is false. *)
Theorem journal_entry_nan_net :
  exists result,
    Cli.process_transaction_file (H := Reference.runtime) 2030
      Examples.september_name Examples.nan_amount = Return (Some result)
    /\ (net_amount result =? 0)%float = false
    /\ Cli.create_summary_and_je_journal result
       = Return [Notice "No journal entry required (Net Amount = 0)"]
    /\ Web.create_summary_and_je_journal result
       = Return [Notice "No journal entry required (Net Amount = 0)"].
Proof.
  eexists. split; [vm_compute; reflexivity|].
  split; [|split]; vm_compute; reflexivity.
Qed.

(** ** The two entry points *)

(** Each function of [app.py] computes what its copy in
    [automate_dlocal_pending.py] computes. *)

Lemma web_first_month_eq (filename_lower : string) (table : list (string * Z)) :
  Web.first_month filename_lower table = Cli.first_month filename_lower table.
Proof.
  induction table as [|[month_name month_num] rest IH]; simpl.
  - reflexivity.
  - rewrite IH. reflexivity.
Qed.

Lemma web_extract_month_eq (now : Z) (filename : string) :
  Web.extract_month_from_filename now filename
  = Cli.extract_month_from_filename now filename.
Proof.
  unfold Web.extract_month_from_filename, Cli.extract_month_from_filename.
  rewrite web_first_month_eq. reflexivity.
Qed.

Lemma web_get_following_month_eq (month year : Z) :
  Web.get_following_month month year = Cli.get_following_month month year.
Proof. reflexivity. Qed.

Lemma web_try_formats_eq `{PyRuntime} (s : string) (formats : list string) :
  Web.try_formats s formats = Cli.try_formats s formats.
Proof.
  induction formats as [|fmt rest IH]; simpl.
  - reflexivity.
  - rewrite IH. reflexivity.
Qed.

Lemma web_parse_date_eq `{PyRuntime} (value : CellValue) :
  Web.parse_date value = Cli.parse_date value.
Proof.
  destruct value as [|x|s|d];
    [reflexivity | reflexivity | apply web_try_formats_eq | reflexivity].
Qed.

Lemma web_record_header_eq (headers : gmap string nat) (column : nat)
    (value : CellValue) :
  Web.record_header headers column value = Cli.record_header headers column value.
Proof. reflexivity. Qed.

Lemma web_scan_cells_eq (row : Row) (headers : gmap string nat) (column : nat) :
  Web.scan_cells headers column row = Cli.scan_cells headers column row.
Proof.
  revert headers column. induction row as [|value rest IH]; intros headers column; simpl.
  - reflexivity.
  - rewrite IH, web_record_header_eq. reflexivity.
Qed.

Lemma web_scan_rows_eq (rows : list Row) (headers : gmap string nat) (row_number : nat) :
  Web.scan_rows headers row_number rows = Cli.scan_rows headers row_number rows.
Proof.
  revert headers row_number.
  induction rows as [|row rest IH]; intros headers row_number; simpl.
  - reflexivity.
  - rewrite web_scan_cells_eq, IH. reflexivity.
Qed.

Lemma web_find_headers_eq (ws : Worksheet) :
  Web.find_headers ws = Cli.find_headers ws.
Proof. apply web_scan_rows_eq. Qed.

Lemma web_scan_reference_cells_eq (row : Row) (headers : gmap string nat)
    (column : nat) :
  Web.scan_reference_cells headers column row
  = Cli.scan_reference_cells headers column row.
Proof.
  revert headers column. induction row as [|value rest IH]; intros headers column; simpl.
  - reflexivity.
  - rewrite IH. reflexivity.
Qed.

Lemma web_find_references_eq (headers : gmap string nat) (ws : Worksheet) :
  Web.find_references headers ws = Cli.find_references headers ws.
Proof.
  unfold Web.find_references, Cli.find_references, Web.first_rows, Cli.first_rows.
  revert headers. induction (take 5 ws) as [|row rest IH]; intros headers; simpl.
  - reflexivity.
  - rewrite web_scan_reference_cells_eq. apply IH.
Qed.

Lemma web_process_row_eq `{PyRuntime} (headers : gmap string nat)
    (following_month following_year : Z) (acc : Totals) (row : Row) :
  Web.process_row headers following_month following_year acc row
  = Cli.process_row headers following_month following_year acc row.
Proof.
  unfold Web.process_row, Cli.process_row.
  destruct (getitem headers "date_processed") as [column|e]; [|reflexivity].
  cbn. rewrite web_parse_date_eq. reflexivity.
Qed.

Lemma web_process_rows_eq `{PyRuntime} (headers : gmap string nat)
    (following_month following_year : Z) (rows : list Row) (acc : Totals) :
  Web.process_rows headers following_month following_year acc rows
  = Cli.process_rows headers following_month following_year acc rows.
Proof.
  revert acc. induction rows as [|row rest IH]; intros acc; simpl.
  - reflexivity.
  - rewrite web_process_row_eq.
    destruct (Cli.process_row _ _ _ _ _) as [acc'|e]; cbn; [apply IH | reflexivity].
Qed.

(** The command-line function, by the case its three tests select. *)
Lemma cli_process_unfold `{PyRuntime} (now : Z) (filename : string) (ws : Worksheet) :
  Cli.process_transaction_file now filename ws =
  match Cli.extract_month_from_filename now filename with
  | None => Return None
  | Some (month, year) =>
      if bool_decide (is_Some (fst (Cli.find_headers ws) !! "date_processed")) then
        match snd (Cli.find_headers ws) with
        | None => Raise (UnboundLocalError "header_row")
        | Some header_row =>
            let following := Cli.get_following_month month year in
            acc ← Cli.process_rows
                    (Cli.find_references (fst (Cli.find_headers ws)) ws)
                    (fst following) (snd following) no_totals (drop header_row ws);
            Return (Some (result_of filename month year following acc))
        end
      else Return None
  end.
Proof.
  unfold Cli.process_transaction_file.
  destruct (Cli.extract_month_from_filename now filename) as [[month year]|];
    [|reflexivity].
  destruct (Cli.get_following_month month year) as [fm fy].
  destruct (Cli.find_headers ws) as [headers header_row]. cbn [fst snd].
  destruct (bool_decide _); cbn [negb]; [|reflexivity].
  destruct header_row; reflexivity.
Qed.

Lemma web_process_unfold `{PyRuntime} (now : Z) (filename : string) (ws : Worksheet) :
  Web.process_transaction_file now filename ws =
  match Cli.extract_month_from_filename now filename with
  | None => Return (None, Some "Could not extract month from filename")
  | Some (month, year) =>
      if bool_decide (is_Some (fst (Cli.find_headers ws) !! "date_processed")) then
        match snd (Cli.find_headers ws) with
        | None => Raise (UnboundLocalError "header_row")
        | Some header_row =>
            let following := Cli.get_following_month month year in
            acc ← Cli.process_rows
                    (Cli.find_references (fst (Cli.find_headers ws)) ws)
                    (fst following) (snd following) no_totals (drop header_row ws);
            Return (Some (result_of filename month year following acc), None)
        end
      else Return (None, Some "Could not find 'Date processed' column")
  end.
Proof.
  unfold Web.process_transaction_file.
  rewrite web_extract_month_eq, web_find_headers_eq.
  destruct (Cli.extract_month_from_filename now filename) as [[month year]|];
    [|reflexivity].
  rewrite web_get_following_month_eq.
  destruct (Cli.get_following_month month year) as [fm fy].
  destruct (Cli.find_headers ws) as [headers header_row]. cbn [fst snd].
  destruct (bool_decide _); cbn [negb]; [|reflexivity].
  rewrite web_find_references_eq.
  destruct header_row; [|reflexivity].
  rewrite web_process_rows_eq. reflexivity.
Qed.

(** C10.  For every workbook and file name the two copies of
    [process_transaction_file] end the same way: both raise the same
    exception, or both return, the web one a pair whose first component
    is what the command-line one returns (the same periods, totals, net
    amount and transaction sequences, or [None] in both) and whose second
    component is an error message exactly when that is [None]. *)
Theorem entry_points_agree `{PyRuntime} (now : Z) (filename : string)
    (ws : Worksheet) :
  match Web.process_transaction_file now filename ws,
        Cli.process_transaction_file now filename ws with
  | Return web, Return cli => reported_as web cli
  | Raise e_web, Raise e_cli => e_web = e_cli
  | _, _ => False
  end.
Proof.
  rewrite web_process_unfold, cli_process_unfold.
  destruct (Cli.extract_month_from_filename now filename) as [[month year]|].
  - destruct (bool_decide _).
    + destruct (snd (Cli.find_headers ws)) as [header_row|]; [|reflexivity].
      cbv zeta. destruct (Cli.process_rows _ _ _ _ _) as [acc|e]; cbn.
      * split; reflexivity.
      * reflexivity.
    + split; [reflexivity | eexists; reflexivity].
  - split; [reflexivity | eexists; reflexivity].
Qed.

Example entry_points_on_september :
  Web.process_transaction_file (H := Reference.runtime) 2030
    Examples.september_name Examples.september
  = (fun r => (r, None)) <$>
      Cli.process_transaction_file (H := Reference.runtime) 2030
        Examples.september_name Examples.september.
Proof. vm_compute. reflexivity. Qed.

(** ** The row loop *)

Lemma record_reference_lookup (headers : gmap string nat) (column : nat)
    (value : CellValue) (key : string) :
  key <> "cn" -> key <> "dn" ->
  Cli.record_reference headers column value !! key = headers !! key.
Proof.
  intros Hcn Hdn. unfold Cli.record_reference.
  destruct value as [|x|s|d]; try reflexivity.
  destruct (truthy (Text s)); [|reflexivity].
  destruct (String.eqb _ "CN"); [apply lookup_insert_ne; congruence|].
  destruct (String.eqb _ "DN"); [apply lookup_insert_ne; congruence|].
  reflexivity.
Qed.

Lemma scan_reference_cells_lookup (row : Row) (headers : gmap string nat)
    (column : nat) (key : string) :
  key <> "cn" -> key <> "dn" ->
  Cli.scan_reference_cells headers column row !! key = headers !! key.
Proof.
  intros Hcn Hdn. revert headers column.
  induction row as [|value rest IH]; intros headers column; simpl.
  - reflexivity.
  - rewrite IH. apply record_reference_lookup; assumption.
Qed.

(** The loop for the CN and DN columns leaves the other columns as the
    first loop located them. *)
Lemma find_references_lookup (headers : gmap string nat) (ws : Worksheet)
    (key : string) :
  key <> "cn" -> key <> "dn" ->
  Cli.find_references headers ws !! key = headers !! key.
Proof.
  intros Hcn Hdn. unfold Cli.find_references.
  revert headers. induction (Cli.first_rows ws) as [|row rest IH]; intros headers; simpl.
  - reflexivity.
  - rewrite IH. apply scan_reference_cells_lookup; assumption.
Qed.

Lemma process_row_parsed `{PyRuntime} (headers : gmap string nat)
    (c_processed c_debit c_return : nat) (following_month following_year : Z)
    (acc : Totals) (row : Row) :
  headers !! "date_processed" = Some c_processed ->
  headers !! "debit_amount" = Some c_debit ->
  headers !! "return_amount" = Some c_return ->
  Cli.process_row headers following_month following_year acc row
  = Return
      (from_option (add_parsed acc) acc
         (parsed_row headers c_processed c_debit c_return
            following_month following_year row)).
Proof.
  intros Hp Hd Hr. unfold Cli.process_row, parsed_row, getitem.
  rewrite Hp, Hd, Hr. cbn.
  destruct (truthy (row_cell row c_processed)); cbn; [|reflexivity].
  unfold add_parsed. cbn.
  destruct (Cli.holds _); reflexivity.
Qed.

Lemma process_rows_parsed `{PyRuntime} (headers : gmap string nat)
    (c_processed c_debit c_return : nat) (following_month following_year : Z)
    (rows : list Row) (acc : Totals) :
  headers !! "date_processed" = Some c_processed ->
  headers !! "debit_amount" = Some c_debit ->
  headers !! "return_amount" = Some c_return ->
  Cli.process_rows headers following_month following_year acc rows
  = Return
      (fold_left add_parsed
         (omap (parsed_row headers c_processed c_debit c_return
                  following_month following_year) rows)
         acc).
Proof.
  intros Hp Hd Hr. revert acc.
  induction rows as [|row rest IH]; intros acc; simpl.
  - reflexivity.
  - rewrite (process_row_parsed headers c_processed c_debit c_return) by assumption.
    cbn. rewrite IH.
    destruct (parsed_row _ _ _ _ _ _ row); reflexivity.
Qed.

Lemma fold_add_parsed (parsed : list ParsedRow) (acc : Totals) :
  let matched := List.filter matchesFollowingPeriod parsed in
  fold_left add_parsed parsed acc
  = {| acc_debit := fold_left PrimFloat.add (debitAmount <$> matched) (acc_debit acc);
       acc_return := fold_left PrimFloat.add (returnAmount <$> matched) (acc_return acc);
       acc_filtered := (acc_filtered acc ++ (as_matched <$> matched))%list;
       acc_all := (acc_all acc ++ (as_transaction <$> parsed))%list |}.
Proof.
  cbv zeta. revert acc. induction parsed as [|p rest IH]; intros acc; simpl.
  - rewrite !app_nil_r. destruct acc; reflexivity.
  - rewrite IH. unfold add_parsed.
    destruct (matchesFollowingPeriod p); cbn; rewrite <- ?app_assoc; reflexivity.
Qed.

(** C3.  Let the first loop have stopped at row [header_row] with the
    three required columns located.  Both entry points return a result
    whose [total_debit] and [total_return] are the sums of the debit and
    of the return amounts over exactly the rows below the header whose
    [is_following_month] holds, whose [net_amount] is their difference,
    whose [all_transactions] are all rows read, in order, and whose
    [transactions] are the rows of the following month among them.  The
    amount of a row is the number coerced from its cell. *)
Theorem aggregation_correct `{PyRuntime} (now : Z) (filename : string)
    (ws : Worksheet) (month year : Z) (located : gmap string nat)
    (header_row c_processed c_debit c_return : nat) :
  Cli.extract_month_from_filename now filename = Some (month, year) ->
  Cli.find_headers ws = (located, Some header_row) ->
  located !! "date_processed" = Some c_processed ->
  located !! "debit_amount" = Some c_debit ->
  located !! "return_amount" = Some c_return ->
  let following := Cli.get_following_month month year in
  let parsed :=
    omap (parsed_row (Cli.find_references located ws) c_processed c_debit
            c_return (fst following) (snd following))
      (drop header_row ws) in
  let matched := List.filter matchesFollowingPeriod parsed in
  exists result,
    Cli.process_transaction_file now filename ws = Return (Some result)
    /\ Web.process_transaction_file now filename ws = Return (Some result, None)
    /\ total_debit result = py_sum (debitAmount <$> matched)
    /\ total_return result = py_sum (returnAmount <$> matched)
    /\ net_amount result = (total_debit result - total_return result)%float
    /\ all_transactions result = as_transaction <$> parsed
    /\ transactions result = as_matched <$> matched.
Proof.
  intros Hperiod Hfind Hp Hd Hr. cbv zeta.
  rewrite cli_process_unfold, web_process_unfold, Hperiod, Hfind. cbn [fst snd].
  rewrite bool_decide_true by (rewrite Hp; eauto). cbv zeta.
  rewrite (process_rows_parsed _ c_processed c_debit c_return)
    by (rewrite find_references_lookup by discriminate; assumption).
  cbn. rewrite fold_add_parsed. cbv zeta.
  eexists. split; [reflexivity|]. split; [reflexivity|].
  cbn. repeat split; reflexivity.
Qed.

(** Scenario C with its neighbours: of the four rows read, two are of
    October 2025; debit 100 + 50, return 30 + 0, net 120. *)
Lemma aggregation_correct_witness :
  exists result,
    Cli.process_transaction_file (H := Reference.runtime) 2030
      Examples.september_name Examples.september = Return (Some result)
    /\ total_debit result = 150%float
    /\ total_return result = 30%float
    /\ net_amount result = 120%float
    /\ length (all_transactions result) = 4%nat
    /\ length (transactions result) = 2%nat.
Proof.
  destruct (aggregation_correct (H := Reference.runtime) 2030
              Examples.september_name Examples.september 9 2025
              (<["date_processed" := 4%nat]> (<["return_amount" := 3%nat]>
                 (<["debit_amount" := 2%nat]> (<["date" := 1%nat]> ∅))))
              2 4 2 3)
    as (result & Hcli & _ & Hdebit & Hreturn & Hnet & Hall & Hmatched).
  - reflexivity.
  - vm_compute. reflexivity.
  - reflexivity.
  - reflexivity.
  - reflexivity.
  - exists result. split; [exact Hcli|].
    rewrite Hnet, Hdebit, Hreturn, Hall, Hmatched.
    repeat split; vm_compute; reflexivity.
Defined.

(** ** Amounts *)

Lemma coerce_amount_as_specified `{PyRuntime} (value : CellValue) :
  Cli.coerce_amount value = amount_as_specified value.
Proof.
  unfold Cli.coerce_amount, amount_as_specified.
  destruct value as [|x|s|d]; cbn.
  - reflexivity.
  - destruct (x =? 0)%float; reflexivity.
  - destruct (String.eqb_spec s "") as [->|Hempty]; [reflexivity|].
    destruct (String.eqb_spec s "-") as [->|Hdash]; [reflexivity|].
    cbn. rewrite bool_decide_false by (intros [?|?]; contradiction).
    destruct (float_of_str _); reflexivity.
  - reflexivity.
Qed.

Lemma web_coerce_amount_eq `{PyRuntime} (value : CellValue) :
  Web.coerce_amount value = Cli.coerce_amount value.
Proof. reflexivity. Qed.

(** What the loop appends for a row it does not skip. *)
Lemma process_row_recorded `{PyRuntime} (headers : gmap string nat)
    (c_processed c_debit c_return : nat) (following_month following_year : Z)
    (acc : Totals) (row : Row) :
  headers !! "date_processed" = Some c_processed ->
  headers !! "debit_amount" = Some c_debit ->
  headers !! "return_amount" = Some c_return ->
  truthy (row_cell row c_processed) = true ->
  exists p,
    parsed_row headers c_processed c_debit c_return
      following_month following_year row = Some p
    /\ Cli.process_row headers following_month following_year acc row
       = Return (add_parsed acc p)
    /\ Web.process_row headers following_month following_year acc row
       = Return (add_parsed acc p).
Proof.
  intros Hp Hd Hr Hcell.
  pose proof (process_row_parsed headers c_processed c_debit c_return
                following_month following_year acc row Hp Hd Hr) as Hrow.
  unfold parsed_row in *. rewrite Hcell in *.
  eexists. split; [reflexivity|].
  split; [|rewrite web_process_row_eq]; exact Hrow.
Qed.

(** C5, as the code has it.  For a row whose processed-date cell is not
    empty, whatever its debit and return cells hold: the loop body of
    either entry point returns, having appended one entry to
    [all_transactions]; the amounts it adds to the totals when the row is
    of the following month are numbers, 0 for an empty cell or "-", the
    float read from the value without its commas otherwise, 0 when that
    cannot be read; and the entry appended keeps, for each amount column,
    the value of the cell as it is, or 0 for an empty cell or "-". *)
Theorem amount_coercion `{PyRuntime} (headers : gmap string nat)
    (c_processed c_debit c_return : nat) (following_month following_year : Z)
    (acc : Totals) (row : Row) :
  headers !! "date_processed" = Some c_processed ->
  headers !! "debit_amount" = Some c_debit ->
  headers !! "return_amount" = Some c_return ->
  truthy (row_cell row c_processed) = true ->
  let debit_value := row_cell row c_debit in
  let return_value := row_cell row c_return in
  let kept (value : CellValue) :=
    if truthy value && not_dash value then value else Number 0 in
  exists (acc' : Totals) (entry : Transaction),
    Cli.process_row headers following_month following_year acc row = Return acc'
    /\ Web.process_row headers following_month following_year acc row = Return acc'
    /\ acc_all acc' = (acc_all acc ++ [entry])%list
    /\ txn_debit entry = kept debit_value
    /\ txn_return entry = kept return_value
    /\ acc_debit acc'
       = (if Cli.holds (txn_is_following_month entry)
          then (acc_debit acc + amount_as_specified debit_value)%float
          else acc_debit acc)
    /\ acc_return acc'
       = (if Cli.holds (txn_is_following_month entry)
          then (acc_return acc + amount_as_specified return_value)%float
          else acc_return acc).
Proof.
  intros Hp Hd Hr Hcell. cbv zeta.
  destruct (process_row_recorded headers c_processed c_debit c_return
              following_month following_year acc row Hp Hd Hr Hcell)
    as (p & Hparsed & Hcli & Hweb).
  exists (add_parsed acc p), (as_transaction p).
  split; [exact Hcli|]. split; [exact Hweb|].
  unfold parsed_row in Hparsed. rewrite Hcell in Hparsed.
  injection Hparsed as <-. rewrite <- !coerce_amount_as_specified.
  unfold add_parsed, Cli.holds. cbn.
  destruct (Cli.following_month_test _ _ _) as [[|]|]; cbn;
    repeat split; reflexivity.
Qed.

(** A row of the following month with "abc" for the debit and "1,234.50"
    for the return: nothing is added to the debit total, 1234.5 to the
    return total, and the entry keeps the two texts. *)
Lemma amount_coercion_witness :
  exists (acc' : Totals) (entry : Transaction),
    Cli.process_row (H := Reference.runtime) Examples.columns 10 2025 no_totals
      [Text "9/30/2025"; Text "abc"; Text "1,234.50"; Text "10/03/2025"]
    = Return acc'
    /\ acc_all acc' = [entry]
    /\ txn_debit entry = Text "abc"
    /\ txn_return entry = Text "1,234.50"
    /\ acc_debit acc' = 0%float
    /\ acc_return acc' = 1234.5%float.
Proof.
  destruct (amount_coercion (H := Reference.runtime) Examples.columns 4 2 3
              10 2025 no_totals
              [Text "9/30/2025"; Text "abc"; Text "1,234.50"; Text "10/03/2025"]
              eq_refl eq_refl eq_refl eq_refl)
    as (acc' & entry & Hcli & _ & Hall & Hdebit & Hreturn & Htotal_debit & Htotal_return).
  exists acc', entry. split; [exact Hcli|].
  vm_compute in Hcli. injection Hcli as <-.
  vm_compute in Hall. injection Hall as <-.
  repeat split; vm_compute; reflexivity.
Defined.

(** C5 as it is worded fails on the entry recorded: for the workbook
    whose one row has the debit cell "abc", the result is returned, no
    error is raised, and the transaction it lists carries the text, not a
    number. *)
Lemma recorded_amount_not_numeric :
  exists result,
    Cli.process_transaction_file (H := Reference.runtime) 2030
      Examples.september_name Examples.bad_amount = Return (Some result)
    /\ ~ (forall entry, entry ∈ all_transactions result ->
            is_number (txn_debit entry) /\ is_number (txn_return entry)).
Proof.
  eexists. split; [vm_compute; reflexivity|].
  intros Hall.
  destruct (Hall _ (list_elem_of_here _ _)) as [[x Hx] _].
  discriminate Hx.
Qed.

(** ** Processed dates *)

Lemma holds_following_month_test (parsed_date : option datetime)
    (following_month following_year : Z) :
  Cli.holds (Cli.following_month_test parsed_date following_month following_year)
  = true
  <-> exists d, parsed_date = Some d
                /\ dt_month d = following_month /\ dt_year d = following_year.
Proof.
  unfold Cli.holds, Cli.following_month_test.
  destruct parsed_date as [d|]; cbn.
  - rewrite andb_true_iff, !Z.eqb_eq. split.
    + intros [Hm Hy]. exists d. auto.
    + intros (d' & Hd & Hm & Hy). injection Hd as <-. auto.
  - split; [discriminate | intros (d & Hd & _); discriminate].
Qed.

(** C6.  For a row whose processed-date cell is not empty: a date value
    is used as it is; a text is read with the formats month/day/two-digit
    year, month/day/four-digit year and year-month-day, in that order, the
    first that succeeds giving the date, and the date is [None] when none
    does; the row is recorded in [all_transactions] with its cell; its
    [is_following_month] holds exactly when the date read has the month
    and the year of the following period; and when no date could be read
    it does not hold and the totals and the matched rows are unchanged. *)
Theorem date_coercion `{PyRuntime} (headers : gmap string nat)
    (c_processed c_debit c_return : nat) (following_month following_year : Z)
    (acc : Totals) (row : Row) :
  headers !! "date_processed" = Some c_processed ->
  headers !! "debit_amount" = Some c_debit ->
  headers !! "return_amount" = Some c_return ->
  truthy (row_cell row c_processed) = true ->
  let cell := row_cell row c_processed in
  let parsed_date := Cli.parse_date cell in
  (forall d, cell = DateValue d -> parsed_date = Some d)
  /\ (forall s, cell = Text s ->
        parsed_date
        = match strptime s "%m/%d/%y" with
          | Some d => Some d
          | None =>
              match strptime s "%m/%d/%Y" with
              | Some d => Some d
              | None => strptime s "%Y-%m-%d"
              end
          end)
  /\ exists (acc' : Totals) (entry : Transaction),
       Cli.process_row headers following_month following_year acc row = Return acc'
       /\ acc_all acc' = (acc_all acc ++ [entry])%list
       /\ txn_date_processed entry = cell
       /\ (Cli.holds (txn_is_following_month entry) = true
           <-> exists d, parsed_date = Some d
                         /\ dt_month d = following_month
                         /\ dt_year d = following_year)
       /\ (parsed_date = None ->
           Cli.holds (txn_is_following_month entry) = false
           /\ acc_debit acc' = acc_debit acc
           /\ acc_return acc' = acc_return acc
           /\ acc_filtered acc' = acc_filtered acc).
Proof.
  intros Hp Hd Hr Hcell. cbv zeta. split; [|split].
  - intros d ->. reflexivity.
  - intros s ->. cbn.
    destruct (strptime s "%m/%d/%y"); [reflexivity|].
    destruct (strptime s "%m/%d/%Y"); [reflexivity|].
    destruct (strptime s "%Y-%m-%d"); reflexivity.
  - destruct (process_row_recorded headers c_processed c_debit c_return
                following_month following_year acc row Hp Hd Hr Hcell)
      as (p & Hparsed & Hcli & _).
    exists (add_parsed acc p), (as_transaction p).
    split; [exact Hcli|].
    unfold parsed_row in Hparsed. rewrite Hcell in Hparsed.
    injection Hparsed as <-. unfold add_parsed. cbn.
    split; [destruct (Cli.holds _); reflexivity|].
    split; [reflexivity|].
    split; [apply holds_following_month_test|].
    intros ->. cbn. repeat split; reflexivity.
Qed.

(** Scenario E: the processed date "pending". *)
Lemma date_coercion_witness :
  Cli.process_row (H := Reference.runtime) Examples.columns 10 2025 no_totals
    [Text "9/30/2025"; Text "70"; Text "5"; Text "pending"; Text "c3"; Text "d3"]
  = Return
      {| acc_debit := 0; acc_return := 0; acc_filtered := [];
         acc_all :=
           [{| txn_date := Text "9/30/2025";
               txn_date_processed := Text "pending";
               txn_debit := Text "70"; txn_return := Text "5";
               txn_cn := Text "c3"; txn_dn := Text "d3";
               txn_is_following_month := None |}] |}.
Proof.
  destruct (date_coercion (H := Reference.runtime) Examples.columns 4 2 3
              10 2025 no_totals
              [Text "9/30/2025"; Text "70"; Text "5"; Text "pending";
               Text "c3"; Text "d3"]
              eq_refl eq_refl eq_refl eq_refl)
    as (_ & _ & acc' & entry & Hrow & _).
  rewrite Hrow. vm_compute in Hrow. injection Hrow as <-. reflexivity.
Defined.

Example date_formats_in_order :
  Cli.parse_date (H := Reference.runtime) (Text "10/05/25")
  = Some {| dt_year := 2025; dt_month := 10; dt_day := 5;
            dt_hour := 0; dt_minute := 0; dt_second := 0 |}
  /\ Cli.parse_date (H := Reference.runtime) (Text "10/05/2025")
     = Cli.parse_date (H := Reference.runtime) (Text "2025-10-05")
  /\ Cli.parse_date (H := Reference.runtime) (Text "5 Oct 2025") = None.
Proof. repeat split; reflexivity. Qed.

(** ** The header scan *)

Lemma scan_cells_fold (row : Row) (headers : gmap string nat) (column : nat) :
  Cli.scan_cells headers column row
  = fold_left record_numbered (numbered_from column row) headers.
Proof.
  revert headers column. induction row as [|value rest IH]; intros headers column.
  - reflexivity.
  - cbn [Cli.scan_cells]. rewrite IH. unfold numbered_from.
    rewrite imap_cons. cbn [fold_left].
    replace (record_numbered headers ((column + 0)%nat, value))
      with (Cli.record_header headers column value)
      by (unfold record_numbered; cbn [fst snd]; rewrite Nat.add_0_r; reflexivity).
    f_equal. apply imap_ext. intros i x _. cbn. f_equal. lia.
Qed.

Lemma scan_all_fold (rows : list Row) (headers : gmap string nat) :
  scan_all headers rows
  = fold_left record_numbered (concat (row_cells <$> rows)) headers.
Proof.
  revert headers. induction rows as [|row rest IH]; intros headers.
  - reflexivity.
  - change (scan_all headers (row :: rest))
      with (scan_all (Cli.scan_cells headers 1 row) rest).
    rewrite IH, scan_cells_fold.
    change (concat (row_cells <$> row :: rest))
      with (row_cells row ++ concat (row_cells <$> rest))%list.
    rewrite fold_left_app. reflexivity.
Qed.

(** What the first loop returns: it stops at the first row after which
    three fields are located, counting those of the rows before. *)
Lemma scan_rows_spec (rows : list Row) (headers : gmap string nat) (n : nat) :
  match Cli.scan_rows headers n rows with
  | (located, Some r) =>
      exists k, r = (n + k)%nat /\ (k < length rows)%nat
        /\ located = scan_all headers (take (S k) rows)
        /\ (3 <= size located)%nat
        /\ forall j, (j < k)%nat -> (size (scan_all headers (take (S j) rows)) < 3)%nat
  | (located, None) =>
      located = scan_all headers rows
      /\ forall j, (j < length rows)%nat ->
           (size (scan_all headers (take (S j) rows)) < 3)%nat
  end.
Proof.
  revert headers n. induction rows as [|row rest IH]; intros headers n.
  - cbn. split; [reflexivity | intros j Hj; lia].
  - cbn [Cli.scan_rows].
    destruct (3 <=? size (Cli.scan_cells headers 1 row))%nat eqn:E.
    + apply Nat.leb_le in E. exists 0%nat.
      split; [lia|]. split; [cbn; lia|]. split; [reflexivity|].
      split; [exact E | intros j Hj; lia].
    + apply Nat.leb_gt in E.
      specialize (IH (Cli.scan_cells headers 1 row) (S n)).
      destruct (Cli.scan_rows _ (S n) rest) as [located [r|]].
      * destruct IH as (k & -> & Hk & -> & Hsize & Hbefore).
        exists (S k). split; [lia|]. split; [cbn; lia|]. split; [reflexivity|].
        split; [exact Hsize|]. intros [|j] Hj; [exact E|].
        apply (Hbefore j). lia.
      * destruct IH as (-> & Hbefore). split; [reflexivity|].
        intros [|j] Hj; [exact E|]. apply (Hbefore j). cbn in Hj. lia.
Qed.

Lemma headers_upto_scan_all (r : nat) (ws : Worksheet) :
  headers_upto r ws = scan_all ∅ (take r (Cli.first_rows ws)).
Proof. reflexivity. Qed.

Lemma first_rows_length (ws : Worksheet) : (length (Cli.first_rows ws) <= 5)%nat.
Proof. unfold Cli.first_rows. rewrite length_take. lia. Qed.

Lemma find_headers_some (ws : Worksheet) (r : nat) :
  snd (Cli.find_headers ws) = Some r <->
  (1 <= r <= 5)%nat
  /\ (3 <= size (headers_upto r ws))%nat
  /\ forall r', (r' < r)%nat -> (size (headers_upto r' ws) < 3)%nat.
Proof.
  unfold Cli.find_headers.
  pose proof (scan_rows_spec (Cli.first_rows ws) ∅ 1) as Hspec.
  pose proof (first_rows_length ws) as Hlen.
  destruct (Cli.scan_rows ∅ 1 (Cli.first_rows ws)) as [located [r0|]]; cbn [snd].
  - destruct Hspec as (k & -> & Hk & -> & Hsize & Hbefore).
    assert (forall r', (r' < S k)%nat -> (size (headers_upto r' ws) < 3)%nat) as Hmin.
    { intros [|j] Hj.
      { change (headers_upto 0 ws) with (∅ : gmap string nat).
        rewrite map_size_empty. lia. }
      rewrite headers_upto_scan_all. apply Hbefore. lia. }
    split.
    + intros Hr. injection Hr as <-. split; [lia|].
      split; [exact Hsize | exact Hmin].
    + intros (Hr & Hsize' & Hmin'). f_equal.
      destruct (Nat.lt_trichotomy r (1 + k)) as [Hlt|[->|Hgt]]; [|reflexivity|].
      * specialize (Hmin r Hlt). lia.
      * specialize (Hmin' (S k) Hgt). rewrite headers_upto_scan_all in Hmin'. lia.
  - destruct Hspec as (_ & Hbefore). split; [discriminate|].
    intros (Hr & Hsize & Hmin). exfalso.
    destruct (Nat.le_gt_cases r (length (Cli.first_rows ws))) as [Hle|Hgt].
    + destruct r as [|j]; [lia|].
      specialize (Hbefore j). rewrite headers_upto_scan_all in Hsize. lia.
    + destruct (length (Cli.first_rows ws)) as [|j] eqn:Elen.
      * rewrite headers_upto_scan_all, take_ge in Hsize by lia.
        apply length_zero_iff_nil in Elen. rewrite Elen in Hsize.
        change (scan_all ∅ []) with (∅ : gmap string nat) in Hsize.
        rewrite map_size_empty in Hsize. lia.
      * specialize (Hbefore j). rewrite <- Elen in Hbefore.
        rewrite take_ge in Hbefore by lia.
        rewrite headers_upto_scan_all, take_ge in Hsize by lia.
        specialize (Hbefore ltac:(lia)). lia.
Qed.

Lemma find_headers_located (ws : Worksheet) :
  fst (Cli.find_headers ws)
  = headers_upto (default 5%nat (snd (Cli.find_headers ws))) ws.
Proof.
  unfold Cli.find_headers.
  pose proof (scan_rows_spec (Cli.first_rows ws) ∅ 1) as Hspec.
  pose proof (first_rows_length ws) as Hlen.
  destruct (Cli.scan_rows ∅ 1 (Cli.first_rows ws)) as [located [r0|]]; cbn [fst snd default].
  - destruct Hspec as (k & -> & _ & -> & _). reflexivity.
  - destruct Hspec as (-> & _). rewrite headers_upto_scan_all, take_ge by lia.
    reflexivity.
Qed.

Lemma record_header_date_processed (headers : gmap string nat) (column : nat)
    (value : CellValue) :
  Cli.record_header headers column value !! "date_processed"
  = if date_processed_label value then Some column
    else headers !! "date_processed".
Proof.
  unfold Cli.record_header, date_processed_label.
  destruct value as [|x|s|d]; try reflexivity.
  destruct (truthy (Text s)); cbn [andb]; [|reflexivity].
  destruct (PyStr.contains "Date processed" _ || PyStr.contains "Date Processed" _).
  - apply lookup_insert_eq.
  - destruct (PyStr.contains "ACH_DEBIT_AMOUNT" _);
      [apply lookup_insert_ne; discriminate|].
    destruct (PyStr.contains "ACH_RETURN_AMOUNT" _);
      [apply lookup_insert_ne; discriminate|].
    destruct (String.eqb _ "Date"); [apply lookup_insert_ne; discriminate|].
    reflexivity.
Qed.

Lemma fold_record_date_processed (cells : list (nat * CellValue))
    (headers : gmap string nat) :
  fold_left record_numbered cells headers !! "date_processed"
  = match last (filter (fun cell => date_processed_label (snd cell) = true) cells) with
    | Some cell => Some (fst cell)
    | None => headers !! "date_processed"
    end.
Proof.
  revert headers. induction cells as [|[column value] rest IH]; intros headers.
  - reflexivity.
  - cbn [fold_left]. rewrite IH, filter_cons. unfold record_numbered at 1.
    cbn [fst snd]. rewrite record_header_date_processed.
    destruct (decide (date_processed_label value = true)) as [E|E].
    + rewrite last_cons, E.
      destruct (last (filter _ rest)); reflexivity.
    + apply not_true_is_false in E. rewrite E. reflexivity.
Qed.

(** C7, as the code has it.  A cell is taken for the [date_processed]
    label exactly when it holds a non-empty text that, trimmed, contains
    "Date processed" or "Date Processed", letter case included; the
    column recorded for [date_processed] is that of the last such cell
    among the cells the first loop visits (rows 1 to the header row, or
    rows 1 to 5 when no row reaches three fields), and the field is not
    located when they hold none.  The web entry point locates the same. *)
Theorem date_processed_recognition (ws : Worksheet) :
  (forall headers column value,
     Cli.record_header headers column value !! "date_processed"
     = if date_processed_label value then Some column
       else headers !! "date_processed")
  /\ fst (Cli.find_headers ws) !! "date_processed"
     = last (fst <$> filter (fun cell => date_processed_label (snd cell) = true)
                       (scanned_cells ws))
  /\ Web.find_headers ws = Cli.find_headers ws.
Proof.
  split; [apply record_header_date_processed|].
  split; [|apply web_find_headers_eq].
  rewrite find_headers_located, headers_upto_scan_all, scan_all_fold.
  rewrite fold_record_date_processed, fmap_last. unfold scanned_cells.
  destruct (last _); reflexivity.
Qed.

Example date_processed_in_september :
  fst (Cli.find_headers Examples.september) !! "date_processed" = Some 4%nat.
Proof. reflexivity. Qed.

(** C7 as it is worded fails: the label in capitals.  The fourth cell
    of row 1 mentions "date processed" when letter case is set aside, and
    no column is recorded for [date_processed]. *)
Lemma capitals_not_recognized :
  ~ (forall (ws : Worksheet) (row : Row) (column : nat) (value : CellValue),
        row ∈ Cli.first_rows ws ->
        row !! column = Some value ->
        mentions_date_processed value = true ->
        fst (Cli.find_headers ws) !! "date_processed" = Some (S column)).
Proof.
  intros H.
  specialize (H Examples.capitals
                [Text "Date"; Text "ACH_DEBIT_AMOUNT"; Text "ACH_RETURN_AMOUNT";
                 Text "DATE PROCESSED"]
                3%nat (Text "DATE PROCESSED")).
  assert (fst (Cli.find_headers Examples.capitals) !! "date_processed" = None)
    as E by reflexivity.
  rewrite E in H. discriminate H.
  - left.
  - reflexivity.
  - reflexivity.
Qed.

Example capitals_file_rejected :
  Cli.process_transaction_file (H := Reference.runtime) 2030
    Examples.september_name Examples.capitals = Return None
  /\ Web.process_transaction_file (H := Reference.runtime) 2030
       Examples.september_name Examples.capitals
     = Return (None, Some "Could not find 'Date processed' column").
Proof. split; reflexivity. Qed.

(** C8, as the code has it.  The first loop stops at row [r] exactly when
    [r] is the first of rows 1 to 5 after which at least three fields are
    located, the fields of the rows above it counted with its own; the
    fields located are then those of rows 1 to [r], and both entry points
    read the transactions from the rows strictly below row [r]. *)
Theorem header_row_selection `{PyRuntime} (now : Z) (filename : string)
    (ws : Worksheet) (r : nat) :
  (snd (Cli.find_headers ws) = Some r <->
   (1 <= r <= 5)%nat
   /\ (3 <= size (headers_upto r ws))%nat
   /\ forall r', (r' < r)%nat -> (size (headers_upto r' ws) < 3)%nat)
  /\ (snd (Cli.find_headers ws) = Some r ->
      Web.find_headers ws = Cli.find_headers ws
      /\ fst (Cli.find_headers ws) = headers_upto r ws
      /\ forall month year,
           Cli.extract_month_from_filename now filename = Some (month, year) ->
           is_Some (headers_upto r ws !! "date_processed") ->
           let following := Cli.get_following_month month year in
           let rows_read :=
             Cli.process_rows (Cli.find_references (headers_upto r ws) ws)
               (fst following) (snd following) no_totals (drop r ws) in
           Cli.process_transaction_file now filename ws
           = (acc ← rows_read;
              Return (Some (result_of filename month year following acc)))
           /\ Web.process_transaction_file now filename ws
              = (acc ← rows_read;
                 Return (Some (result_of filename month year following acc), None))).
Proof.
  split; [apply find_headers_some|].
  intros Hr. split; [apply web_find_headers_eq|].
  pose proof (find_headers_located ws) as Hlocated.
  rewrite Hr in Hlocated. cbn [default] in Hlocated.
  split; [exact Hlocated|].
  intros month year Hperiod Hfound. cbv zeta.
  rewrite cli_process_unfold, web_process_unfold, Hperiod, Hr, Hlocated.
  rewrite bool_decide_true by exact Hfound.
  split; reflexivity.
Qed.

(** C8 as it is worded fails: the three labels on rows 1, 2 and 3, one
    each.  No row contributes three fields by itself, and the loop stops
    at row 3. *)
Lemma header_spread_over_rows :
  ~ (forall (ws : Worksheet) (r : nat),
        snd (Cli.find_headers ws) = Some r ->
        exists row, Cli.first_rows ws !! (r - 1)%nat = Some row
                    /\ (3 <= size (own_fields row))%nat).
Proof.
  intros H. destruct (H Examples.spread 3%nat eq_refl) as (row & Hrow & Hsize).
  cbn in Hrow. injection Hrow as <-. vm_compute in Hsize. lia.
Qed.

Example spread_file_processed :
  exists result,
    Cli.process_transaction_file (H := Reference.runtime) 2030
      Examples.september_name Examples.spread = Return (Some result)
    /\ Forall (fun row => (size (own_fields row) < 3)%nat)
         (Cli.first_rows Examples.spread)
    /\ total_debit result = 10%float
    /\ total_return result = 4%float
    /\ length (all_transactions result) = 1%nat.
Proof.
  eexists. split; [vm_compute; reflexivity|].
  split; [repeat constructor|]. repeat split; reflexivity.
Qed.

(** ** The clock *)

Lemma extract_month_with_year (now1 now2 : Z) (filename g : string) :
  first_year_token filename g ->
  Cli.extract_month_from_filename now1 filename
  = Cli.extract_month_from_filename now2 filename.
Proof.
  intros Hg. apply re_search_20dd_first in Hg.
  unfold Cli.extract_month_from_filename. rewrite Hg. reflexivity.
Qed.

(** C9, as the code has it.  A run is a function of the year of the
    clock, the file name and the workbook.  For a file name with a year
    token the year of the clock is not used: runs at any two times return
    the same result, from either entry point.  (For a file name without
    one the source year is the year of the clock.) *)
Theorem result_independent_of_clock `{PyRuntime} (now1 now2 : Z)
    (filename g : string) (ws : Worksheet) :
  first_year_token filename g ->
  Cli.process_transaction_file now1 filename ws
  = Cli.process_transaction_file now2 filename ws
  /\ Web.process_transaction_file now1 filename ws
     = Web.process_transaction_file now2 filename ws.
Proof.
  intros Hg.
  rewrite !cli_process_unfold, !web_process_unfold.
  rewrite (extract_month_with_year now1 now2 filename g Hg).
  split; reflexivity.
Qed.

Lemma result_independent_of_clock_witness :
  Cli.process_transaction_file (H := Reference.runtime) 2025
    Examples.september_name Examples.september
  = Cli.process_transaction_file (H := Reference.runtime) 2026
      Examples.september_name Examples.september.
Proof.
  apply (result_independent_of_clock (H := Reference.runtime) 2025 2026
           Examples.september_name "2025" Examples.september).
  apply re_search_20dd_first. reflexivity.
Defined.

(** C9 as it is worded fails: a file name without a year.  The same
    workbook under the name "Control Septiembre.xlsx" gives a debit total
    of 100 in a run of 2025, when its row of October 2025 is of the
    following month, and of 0 in a run of 2026. *)
Lemma result_depends_on_clock :
  ~ (forall (now1 now2 : Z) (filename : string) (ws : Worksheet),
        Cli.process_transaction_file (H := Reference.runtime) now1 filename ws
        = Cli.process_transaction_file (H := Reference.runtime) now2 filename ws).
Proof.
  intros H.
  specialize (H 2025%Z 2026%Z "Control Septiembre.xlsx" Examples.october_row).
  vm_compute in H. discriminate H.
Qed.

Example totals_by_year_of_run :
  (exists result,
     Cli.process_transaction_file (H := Reference.runtime) 2025
       "Control Septiembre.xlsx" Examples.october_row = Return (Some result)
     /\ following_year result = 2025%Z /\ total_debit result = 100%float)
  /\ (exists result,
        Cli.process_transaction_file (H := Reference.runtime) 2026
          "Control Septiembre.xlsx" Examples.october_row = Return (Some result)
        /\ following_year result = 2026%Z /\ total_debit result = 0%float).
Proof. split; eexists; (split; [vm_compute; reflexivity|]); split; reflexivity. Qed.

(** ** Runs that end in an exception *)

(** X2.  When the processed-date column is located and rows 1 to 5 never
    bring the located fields to three, [header_row] is never assigned:
    neither entry point returns, both raise [UnboundLocalError] at the
    loop over the data rows. *)
Theorem header_row_unbound `{PyRuntime} (now : Z) (filename : string)
    (ws : Worksheet) (month year : Z) :
  Cli.extract_month_from_filename now filename = Some (month, year) ->
  snd (Cli.find_headers ws) = None ->
  is_Some (fst (Cli.find_headers ws) !! "date_processed") ->
  Cli.process_transaction_file now filename ws
  = Raise (UnboundLocalError "header_row")
  /\ Web.process_transaction_file now filename ws
     = Raise (UnboundLocalError "header_row").
Proof.
  intros Hperiod Hrow Hfound.
  rewrite cli_process_unfold, web_process_unfold, Hperiod, Hrow.
  rewrite bool_decide_true by exact Hfound. split; reflexivity.
Qed.

Lemma header_row_unbound_witness :
  Cli.process_transaction_file (H := Reference.runtime) 2030
    Examples.september_name Examples.lone_label
  = Raise (UnboundLocalError "header_row").
Proof.
  apply (header_row_unbound (H := Reference.runtime) 2030
           Examples.september_name Examples.lone_label 9 2025 eq_refl eq_refl).
  vm_compute. eauto.
Defined.

(** X3.  When the debit column was not located, a row whose
    processed-date cell is not empty makes the loop body of either entry
    point raise [KeyError] for [debit_amount]; likewise for the return
    column once the debit column is there. *)
Theorem amount_column_missing `{PyRuntime} (headers : gmap string nat)
    (c_processed : nat) (following_month following_year : Z) (acc : Totals)
    (row : Row) :
  headers !! "date_processed" = Some c_processed ->
  truthy (row_cell row c_processed) = true ->
  (headers !! "debit_amount" = None ->
   Cli.process_row headers following_month following_year acc row
   = Raise (KeyError "debit_amount")
   /\ Web.process_row headers following_month following_year acc row
      = Raise (KeyError "debit_amount"))
  /\ (is_Some (headers !! "debit_amount") ->
      headers !! "return_amount" = None ->
      Cli.process_row headers following_month following_year acc row
      = Raise (KeyError "return_amount")
      /\ Web.process_row headers following_month following_year acc row
         = Raise (KeyError "return_amount")).
Proof.
  intros Hp Hcell. split.
  - intros Hd.
    assert (Cli.process_row headers following_month following_year acc row
            = Raise (KeyError "debit_amount")) as Hcli.
    { unfold Cli.process_row, getitem. rewrite Hp, Hd. cbn.
      rewrite Hcell. reflexivity. }
    split; [|rewrite web_process_row_eq]; exact Hcli.
  - intros [c_debit Hd] Hr.
    assert (Cli.process_row headers following_month following_year acc row
            = Raise (KeyError "return_amount")) as Hcli.
    { unfold Cli.process_row, getitem. rewrite Hp, Hd, Hr. cbn.
      rewrite Hcell. reflexivity. }
    split; [|rewrite web_process_row_eq]; exact Hcli.
Qed.

Lemma amount_column_missing_witness :
  Cli.process_row (H := Reference.runtime)
    (<["date_processed" := 3%nat]> (<["return_amount" := 2%nat]>
       (<["date" := 1%nat]> ∅)))
    10 2025 no_totals [Text "9/30/2025"; Text "5"; Text "10/03/2025"]
  = Raise (KeyError "debit_amount").
Proof.
  destruct (amount_column_missing (H := Reference.runtime)
              (<["date_processed" := 3%nat]> (<["return_amount" := 2%nat]>
                 (<["date" := 1%nat]> ∅)))
              3 10 2025 no_totals
              [Text "9/30/2025"; Text "5"; Text "10/03/2025"])
    as [Hdebit _].
  - vm_compute. reflexivity.
  - vm_compute. reflexivity.
  - destruct Hdebit as [Hrow _]; [vm_compute; reflexivity|]. exact Hrow.
Defined.

Example no_debit_column_run :
  Cli.process_transaction_file (H := Reference.runtime) 2030
    Examples.september_name Examples.no_debit_column
  = Raise (KeyError "debit_amount").
Proof. vm_compute. reflexivity. Qed.

(** ** File names *)

Lemma after_last_dot_none (s : string) :
  Names.after_last_dot s = None <-> ~ occurs "." s.
Proof.
  rewrite <- contains_false_iff. induction s as [|c s IH].
  - split; reflexivity.
  - rewrite contains_cons. cbn [Names.after_last_dot String.prefix].
    destruct (Names.after_last_dot s) as [e|].
    + split; [discriminate|]. intros H. apply orb_false_iff in H as [_ H].
      apply IH in H. discriminate H.
    + destruct IH as [IH _]. rewrite (IH eq_refl), orb_false_r.
      destruct (ascii_dec "." c) as [<-|Hne].
      * destruct s; split; discriminate.
      * destruct (Ascii.eqb_spec c ".") as [->|_]; [contradiction|].
        split; reflexivity.
Qed.

Lemma after_last_dot_some (s extension : string) :
  Names.after_last_dot s = Some extension <->
  exists stem, s = stem ++ "." ++ extension /\ ~ occurs "." extension.
Proof.
  split.
  - revert extension. induction s as [|c s IH]; intros extension; [discriminate|].
    cbn [Names.after_last_dot].
    destruct (Names.after_last_dot s) as [e|] eqn:E.
    + intros H. injection H as <-. destruct (IH e eq_refl) as (stem & -> & Hno).
      exists (String c stem). split; [reflexivity | exact Hno].
    + destruct (Ascii.eqb_spec c ".") as [->|_]; [|discriminate].
      intros H. injection H as <-. exists "". split; [reflexivity|].
      apply after_last_dot_none. exact E.
  - intros (stem & -> & Hno). apply after_last_dot_none in Hno.
    induction stem as [|c stem IH].
    + change ("" ++ "." ++ extension) with (String "." extension).
      cbn [Names.after_last_dot]. rewrite Hno. reflexivity.
    + rewrite append_cons. cbn [Names.after_last_dot]. rewrite IH. reflexivity.
Qed.

(** X4.  [allowed_file] accepts a name exactly when it ends in a dot
    followed by an extension without a dot that is "xlsx" or "xls" in some
    capitalisation: only the text after the last dot counts. *)
Theorem allowed_file_iff (filename : string) :
  Names.allowed_file filename = true <->
  exists stem extension,
    filename = stem ++ "." ++ extension
    /\ ~ occurs "." extension
    /\ (PyStr.lower extension = "xlsx" \/ PyStr.lower extension = "xls").
Proof.
  unfold Names.allowed_file. split.
  - intros H. apply andb_true_iff in H as [_ H].
    destruct (Names.after_last_dot filename) as [extension|] eqn:E; [|discriminate].
    apply after_last_dot_some in E as (stem & -> & Hno).
    apply bool_decide_eq_true in H. exists stem, extension.
    split; [reflexivity|]. split; [exact Hno|].
    unfold Names.ALLOWED_EXTENSIONS in H.
    apply elem_of_cons in H as [H|H]; [left; exact H|].
    apply elem_of_cons in H as [H|H]; [right; exact H|].
    inversion H.
  - intros (stem & extension & -> & Hno & Hext).
    apply andb_true_iff. split.
    + apply contains_iff. exists stem, extension. reflexivity.
    + replace (Names.after_last_dot (stem ++ "." ++ extension)) with (Some extension)
        by (symmetry; apply after_last_dot_some; eauto).
      apply bool_decide_eq_true. unfold Names.ALLOWED_EXTENSIONS.
      destruct Hext as [-> | ->]; [left | right; left].
Qed.

Example allowed_file_examples :
  Names.allowed_file "Control Septiembre 2025.XLSX" = true
  /\ Names.allowed_file "report.xls" = true
  /\ Names.allowed_file "report.xlsx.exe" = false
  /\ Names.allowed_file "xlsx" = false
  /\ Names.allowed_file "report.xlsx " = false.
Proof. repeat split; reflexivity. Qed.

(** *** [str.replace] *)

Lemma replace_from_cons (old new : string) (c : ascii) (rest : string) :
  Names.replace_from old new 0 (String c rest)
  = if String.prefix old (String c rest)
    then new ++ Names.replace_from old new (String.length old - 1) rest
    else String c (Names.replace_from old new 0 rest).
Proof. reflexivity. Qed.

Lemma prefix_false_of_absent (old s : string) :
  ~ occurs old s -> String.prefix old s = false.
Proof.
  intros H. destruct (String.prefix old s) eqn:E; [|reflexivity].
  apply prefix_iff in E as [post ->]. destruct H. exists "", post. reflexivity.
Qed.

Lemma absent_tail (old : string) (c : ascii) (s : string) :
  ~ occurs old (String c s) -> ~ occurs old s.
Proof.
  intros H (pre & post & ->). apply H. exists (String c pre), post. reflexivity.
Qed.

(** A text without [old] is left as it is. *)
Lemma replace_absent (old new s : string) :
  ~ occurs old s -> Names.replace old new s = s.
Proof.
  unfold Names.replace. induction s as [|c s IH]; intros H; [reflexivity|].
  rewrite replace_from_cons, (prefix_false_of_absent _ _ H).
  rewrite (IH (absent_tail _ _ _ H)). reflexivity.
Qed.

Lemma append_length (s t : string) :
  String.length (s ++ t) = (String.length s + String.length t)%nat.
Proof.
  induction s as [|c s IH]; [reflexivity|].
  rewrite append_cons. cbn [String.length]. rewrite IH. reflexivity.
Qed.

Lemma replace_from_length (old new : string) (s : string) (skip : nat) :
  (1 <= String.length old <= String.length new)%nat ->
  (String.length s
   <= String.length (Names.replace_from old new skip s)
      + Nat.min skip (String.length s))%nat.
Proof.
  intros Hlen. revert skip. induction s as [|c s IH]; intros skip.
  - cbn. lia.
  - destruct skip as [|skip].
    + rewrite replace_from_cons. destruct (String.prefix old (String c s)).
      * rewrite append_length. specialize (IH (String.length old - 1)%nat).
        cbn [String.length]. lia.
      * specialize (IH 0%nat). cbn [String.length]. lia.
    + cbn [Names.replace_from String.length]. specialize (IH skip). lia.
Qed.

(** A text with [old] grows when [new] is longer than [old]. *)
Lemma replace_present_longer (old new s : string) :
  (1 <= String.length old < String.length new)%nat ->
  occurs old s ->
  (String.length s < String.length (Names.replace old new s))%nat.
Proof.
  intros Hlen. unfold Names.replace. induction s as [|c s IH]; intros Hocc.
  - destruct Hocc as (pre & post & H). destruct pre, old; cbn in *; try discriminate; lia.
  - rewrite replace_from_cons. destruct (String.prefix old (String c s)) eqn:E.
    + rewrite append_length.
      pose proof (replace_from_length old new s (String.length old - 1)
                    ltac:(lia)) as H.
      cbn [String.length]. lia.
    + cbn [String.length]. apply -> Nat.succ_lt_mono. apply IH.
      destruct Hocc as (pre & post & H). destruct pre as [|c' pre].
      * rewrite append_nil in H. exfalso.
        assert (String.prefix old (String c s) = true) as E'
          by (apply prefix_iff; exists post; exact H).
        congruence.
      * rewrite append_cons in H. injection H as _ ->. exists pre, post. reflexivity.
Qed.

Lemma prefix_length (p s : string) :
  String.prefix p s = true -> (String.length p <= String.length s)%nat.
Proof.
  intros H. apply prefix_iff in H as [post ->]. rewrite append_length. lia.
Qed.

Lemma replace_from_length_upper (old new : string) (s : string) (skip : nat) :
  (String.length new <= String.length old)%nat ->
  (String.length (Names.replace_from old new skip s)
   + Nat.min skip (String.length s) <= String.length s)%nat.
Proof.
  intros Hlen. revert skip. induction s as [|c s IH]; intros skip.
  - cbn. lia.
  - destruct skip as [|skip].
    + rewrite replace_from_cons. destruct (String.prefix old (String c s)) eqn:E.
      * rewrite append_length. specialize (IH (String.length old - 1)%nat).
        apply prefix_length in E. cbn [String.length] in *. lia.
      * specialize (IH 0%nat). cbn [String.length]. lia.
    + cbn [Names.replace_from String.length]. specialize (IH skip). lia.
Qed.

(** A text with [old] shrinks when [new] is shorter than [old]. *)
Lemma replace_present_shorter (old new s : string) :
  (String.length new < String.length old)%nat ->
  occurs old s ->
  (String.length (Names.replace old new s) < String.length s)%nat.
Proof.
  intros Hlen. unfold Names.replace. induction s as [|c s IH]; intros Hocc.
  - destruct Hocc as (pre & post & H). destruct pre, old; cbn in *; try discriminate; lia.
  - rewrite replace_from_cons. destruct (String.prefix old (String c s)) eqn:E.
    + rewrite append_length.
      pose proof (replace_from_length_upper old new s (String.length old - 1)
                    ltac:(lia)) as H.
      apply prefix_length in E. cbn [String.length] in *. lia.
    + cbn [String.length]. apply -> Nat.succ_lt_mono. apply IH.
      destruct Hocc as (pre & post & H). destruct pre as [|c' pre].
      * rewrite append_nil in H. exfalso.
        assert (String.prefix old (String c s) = true) as E'
          by (apply prefix_iff; exists post; exact H).
        congruence.
      * rewrite append_cons in H. injection H as _ ->. exists pre, post. reflexivity.
Qed.

(** X5.  The path [main] saves the report to is its input path exactly
    when the input path does not contain ".xlsx" in lower case (the report
    then takes the place of the input file); likewise the name
    [download_je_only] saves the journal-only workbook under is the name
    of the report itself exactly when that name does not contain
    "_Summary_JE.xlsx". *)
Theorem output_over_input_iff (path : string) :
  (Names.output_file path = path <-> ~ occurs ".xlsx" path)
  /\ (Names.je_filename path = path <-> ~ occurs "_Summary_JE.xlsx" path).
Proof.
  split; (split; [|apply replace_absent]).
  - intros H Hocc.
    pose proof (replace_present_longer ".xlsx" "_Summary_JE.xlsx" path
                  ltac:(cbn; lia) Hocc) as Hlen.
    unfold Names.output_file in H. rewrite H in Hlen. lia.
  - intros H Hocc.
    pose proof (replace_present_shorter "_Summary_JE.xlsx" "_JE_Only.xlsx" path
                  ltac:(cbn; lia) Hocc) as Hlen.
    unfold Names.je_filename in H. rewrite H in Hlen. lia.
Qed.

Lemma append_nil_r (s : string) : s ++ "" = s.
Proof. induction s as [|c s IH]; [reflexivity|]. rewrite append_cons, IH. reflexivity. Qed.

Lemma append_assoc (s t u : string) : (s ++ t) ++ u = s ++ (t ++ u).
Proof.
  induction s as [|c s IH]; [reflexivity|]. rewrite !append_cons, IH. reflexivity.
Qed.

Lemma prefix_nil (s : string) : String.prefix "" s = true.
Proof. destruct s; reflexivity. Qed.

Lemma prefix_cons (a b : ascii) (p s : string) :
  String.prefix (String a p) (String b s) = true <-> a = b /\ String.prefix p s = true.
Proof.
  cbn [String.prefix]. destruct (ascii_dec a b) as [->|Hne].
  - split; [auto | intros [_ H]; exact H].
  - split; [discriminate | intros [H _]; contradiction].
Qed.

(** A prefix [p] of [post ++ q] lies within [post], or runs over its end
    and goes on as a prefix of [q]. *)
Lemma prefix_app_cases (post p q : string) :
  String.prefix p (post ++ q) = true ->
  String.prefix p post = true
  \/ ((String.length post < String.length p)%nat
      /\ String.prefix (string_drop (String.length post) p) q = true).
Proof.
  revert p. induction post as [|c post IH]; intros p H.
  - rewrite append_nil in H. destruct p as [|a p]; [left; reflexivity|].
    right. split; [cbn; lia | exact H].
  - destruct p as [|a p]; [left; reflexivity|].
    rewrite append_cons in H. apply prefix_cons in H as [-> H].
    destruct (IH p H) as [Hin|[Hlen Hover]].
    + left. apply prefix_cons. auto.
    + right. split; [cbn; lia | exact Hover].
Qed.

Lemma border_free_spec (old : string) (k : nat) :
  border_free old = true -> (1 <= k < String.length old)%nat ->
  String.prefix (string_drop k old) old = false.
Proof.
  intros H Hk. unfold border_free in H. rewrite forallb_forall in H.
  apply negb_true_iff, H, in_seq. lia.
Qed.

(** An occurrence of [old] cannot start in [post] and end in an [old]
    that follows it. *)
Lemma no_straddle (old post : string) :
  border_free old = true -> ~ occurs old post -> post <> "" ->
  String.prefix old (post ++ old) = false.
Proof.
  intros Hfree Habsent Hpost.
  destruct (String.prefix old (post ++ old)) eqn:E; [|reflexivity].
  destruct (prefix_app_cases post old old E) as [Hin|[Hlen Hover]].
  - destruct Habsent. apply prefix_iff in Hin as [rest ->].
    exists "", rest. reflexivity.
  - rewrite (border_free_spec old (String.length post) Hfree) in Hover;
      [discriminate|].
    destruct post; [contradiction | cbn in *; lia].
Qed.

Lemma replace_from_skip_all (old new s : string) (skip : nat) :
  (String.length s <= skip)%nat -> Names.replace_from old new skip s = "".
Proof.
  revert skip. induction s as [|c s IH]; intros skip H; [reflexivity|].
  destruct skip as [|skip]; [cbn in H; lia|].
  cbn [Names.replace_from]. apply IH. cbn in H. lia.
Qed.

Lemma prefix_refl (s : string) : String.prefix s s = true.
Proof. apply prefix_iff. exists "". symmetry. apply append_nil_r. Qed.

(** [old] at the end of a text that has no other [old] is replaced by
    [new]; the text before it is kept. *)
Lemma replace_suffix (old new pre : string) :
  old <> "" -> border_free old = true -> ~ occurs old pre ->
  Names.replace old new (pre ++ old) = pre ++ new.
Proof.
  intros Hold Hfree. unfold Names.replace.
  induction pre as [|c pre IH]; intros Habsent.
  - rewrite !append_nil. destruct old as [|a old]; [contradiction|].
    rewrite replace_from_cons, prefix_refl.
    rewrite replace_from_skip_all by (cbn; lia). apply append_nil_r.
  - rewrite !append_cons, replace_from_cons.
    rewrite <- append_cons, (no_straddle old (String c pre) Hfree Habsent)
      by discriminate.
    rewrite (IH (absent_tail _ _ _ Habsent)). reflexivity.
Qed.

Lemma occurs_trans (a b s : string) : occurs a b -> occurs b s -> occurs a s.
Proof.
  intros (p1 & q1 & ->) (p2 & q2 & ->).
  exists (p2 ++ p1), (q1 ++ q2). rewrite !append_assoc. reflexivity.
Qed.

(** *** The characters of a time stamp *)

Lemma string_forall_app (f : ascii -> bool) (s t : string) :
  string_forall f (s ++ t) = string_forall f s && string_forall f t.
Proof.
  induction s as [|c s IH]; [reflexivity|].
  rewrite append_cons. cbn [string_forall]. rewrite IH, andb_assoc. reflexivity.
Qed.

Lemma string_forall_impl (f g : ascii -> bool) (s : string) :
  (forall c, f c = true -> g c = true) ->
  string_forall f s = true -> string_forall g s = true.
Proof.
  intros Hfg. induction s as [|c s IH]; [reflexivity|]. cbn [string_forall].
  rewrite !andb_true_iff. intros [Hc Hs]. auto.
Qed.

Lemma pretty_N_char_stamp (d : N) : stamp_char (pretty_N_char d) = true.
Proof. unfold pretty_N_char. repeat case_match; reflexivity. Qed.

Lemma pretty_N_go_stamp (x : N) (s : string) :
  string_forall stamp_char s = true ->
  string_forall stamp_char (pretty_N_go x s) = true.
Proof.
  revert s. induction (N.lt_wf_0 x) as [x _ IH]; intros s Hs.
  destruct (decide (x = 0)%N) as [->|Hx].
  - rewrite pretty_N_go_0. exact Hs.
  - rewrite pretty_N_go_step by lia. apply IH.
    + apply N.div_lt; lia.
    + cbn [string_forall]. rewrite pretty_N_char_stamp. exact Hs.
Qed.

(** [str(n)] is made of digits and, for a negative [n], a dash. *)
Lemma str_int_stamp (n : Z) : string_forall stamp_char (PyStr.str_int n) = true.
Proof.
  unfold PyStr.str_int, pretty, pretty_Z.
  assert (forall p : positive, string_forall stamp_char (pretty p) = true) as Hpos.
  { intros p. unfold pretty, pretty_positive, pretty, pretty_N.
    case_decide; [reflexivity|]. apply pretty_N_go_stamp. reflexivity. }
  destruct n as [|p|p]; [reflexivity | apply Hpos |].
  change ("-" +:+ pretty p) with (String "-" (pretty p)).
  cbn [string_forall]. rewrite Hpos. reflexivity.
Qed.

Lemma format_02d_stamp (n : Z) : string_forall stamp_char (PyStr.format_02d n) = true.
Proof.
  unfold PyStr.format_02d. destruct (_ <? 2)%nat.
  - change ("0" ++ PyStr.str_int n) with (String "0" (PyStr.str_int n)).
    cbn [string_forall]. rewrite str_int_stamp. reflexivity.
  - apply str_int_stamp.
Qed.

Lemma timestamp_stamp (now : datetime) :
  string_forall stamp_char (Names.timestamp now ++ "_") = true.
Proof.
  unfold Names.timestamp.
  rewrite !string_forall_app, !str_int_stamp, !format_02d_stamp. reflexivity.
Qed.

(** A pattern whose first character is not in [pre] occurs in [pre ++ s]
    only where it occurs in [s]. *)
Lemma contains_after (c : ascii) (pattern pre s : string) :
  string_forall (fun d => negb (Ascii.eqb d c)) pre = true ->
  PyStr.contains (String c pattern) (pre ++ s) = PyStr.contains (String c pattern) s.
Proof.
  induction pre as [|d pre IH]; intros H; [reflexivity|].
  cbn [string_forall] in H. apply andb_true_iff in H as [Hd Hpre].
  rewrite append_cons, contains_cons, (IH Hpre).
  replace (String.prefix (String c pattern) (String d (pre ++ s))) with false;
    [reflexivity|].
  symmetry. cbn [String.prefix]. destruct (ascii_dec c d) as [->|_]; [|reflexivity].
  rewrite Ascii.eqb_refl in Hd. discriminate Hd.
Qed.

Lemma absent_after_stamp (c : ascii) (pattern : string) (now : datetime)
    (s : string) :
  stamp_char c = false ->
  ~ occurs (String c pattern) s ->
  ~ occurs (String c pattern) (Names.timestamp now ++ "_" ++ s).
Proof.
  intros Hc Habsent. apply contains_false_iff.
  rewrite <- append_assoc, contains_after; [apply contains_false_iff; exact Habsent|].
  apply (string_forall_impl stamp_char); [|apply timestamp_stamp].
  intros d Hd. destruct (Ascii.eqb_spec d c) as [->|_]; [congruence | reflexivity].
Qed.

(** X6.  For a name [stem ++ ".xlsx"] whose stem does not contain
    ".xlsx": [main] saves the report as [stem ++ "_Summary_JE.xlsx"];
    [upload_file] names it the time stamp, an underscore and
    [stem ++ "_Summary_JE.xlsx"]; and [download_je_only] turns that name
    into the time stamp, an underscore and [stem ++ "_JE_Only.xlsx"]. *)
Theorem report_names (now : datetime) (stem : string) :
  ~ occurs ".xlsx" stem ->
  Names.output_file (stem ++ ".xlsx") = stem ++ "_Summary_JE.xlsx"
  /\ Names.output_filename now (stem ++ ".xlsx")
     = Names.timestamp now ++ "_" ++ stem ++ "_Summary_JE.xlsx"
  /\ Names.je_filename (Names.output_filename now (stem ++ ".xlsx"))
     = Names.timestamp now ++ "_" ++ stem ++ "_JE_Only.xlsx".
Proof.
  intros Habsent.
  assert (Names.replace ".xlsx" "_Summary_JE.xlsx" (stem ++ ".xlsx")
          = stem ++ "_Summary_JE.xlsx") as Hout
    by (apply replace_suffix; [discriminate | reflexivity | exact Habsent]).
  split; [exact Hout|]. unfold Names.output_filename. rewrite Hout.
  split; [reflexivity|]. unfold Names.je_filename.
  rewrite <- !append_assoc. rewrite replace_suffix; [reflexivity | discriminate | reflexivity |].
  intros Hocc. rewrite append_assoc in Hocc.
  apply (absent_after_stamp "." "xlsx" now stem eq_refl Habsent).
  apply (occurs_trans _ "_Summary_JE.xlsx"); [|exact Hocc].
  exists "_Summary_JE", "". reflexivity.
Qed.

Lemma report_names_witness :
  Names.output_file "reports/09 Control Septiembre 2025.xlsx"
  = "reports/09 Control Septiembre 2025_Summary_JE.xlsx".
Proof.
  apply (report_names
           {| dt_year := 2025; dt_month := 11; dt_day := 5;
              dt_hour := 7; dt_minute := 33; dt_second := 0 |}
           "reports/09 Control Septiembre 2025").
  apply contains_false_iff. reflexivity.
Defined.

Example names_of_an_upload :
  let now := {| dt_year := 2025; dt_month := 11; dt_day := 5;
                dt_hour := 7; dt_minute := 33; dt_second := 0 |} in
  Names.unique_filename now "Control_Septiembre_2025.xlsx"
  = "20251105_073300_Control_Septiembre_2025.xlsx"
  /\ Names.output_filename now "Control_Septiembre_2025.xlsx"
     = "20251105_073300_Control_Septiembre_2025_Summary_JE.xlsx"
  /\ Names.je_filename "20251105_073300_Control_Septiembre_2025_Summary_JE.xlsx"
     = "20251105_073300_Control_Septiembre_2025_JE_Only.xlsx"
  /\ Names.output_filename now "Control_Septiembre_2025.XLSX"
     = "20251105_073300_Control_Septiembre_2025.XLSX".
Proof. repeat split; reflexivity. Qed.
